(** * PR / GHI reconciliation and derived metrics ([app.py])

    A shallow embedding of [process_data], [plot_pr_evolution] (with its
    local [get_color]) and [main], and the properties of the
    date-keyed reconciliation, the budget curve, the rolling mean, the
    colour buckets and the recent-window summaries.

    Data model.
    - A pandas [Timestamp] built from a [YYYY-MM-DD] file name is a whole
      day; it is kept as the number of days since 1970-01-01, so that
      comparison is integer comparison and [timedelta(days=n)] is [n].
    - [GHI] is only ever compared with the integer thresholds 2, 4 and 6.
      IEEE comparison is exact, so the column is kept as binary64 values
      (the kernel's floats), NaN and infinities included.
    - [PR] and the budget are summed, divided and multiplied.  Those
      operations round in binary64; they are modelled on exact rationals,
      with a missing value (pandas' NaN) as [None].
    - The two dictionaries [ghi_dict] and [pr_dict] are finite maps from
      the day to the value of the first matching row of that day's file.
    - Writing a file is an update of a map from paths to file contents.

    Left out: the walk over the two directories and the parsing of each
    CSV file (lines 16 to 59), whose result is the two dictionaries; the
    messages printed; the calls that draw the figure, of which only the
    data handed over and the final [savefig] are kept. *)

From Stdlib Require Import ZArith QArith Qcanon Floats Lia Ascii.
From stdpp Require Import gmap strings list sorting.

Open Scope Z_scope.

(** ** Days *)

Abbreviation Timestamp := Z.

(** Days since 1970-01-01 of the proleptic Gregorian date [y-m-d]. *)
Definition days_from_civil (y m d : Z) : Z :=
  let y' := if m <=? 2 then y - 1 else y in
  let era := y' / 400 in
  let yoe := y' - era * 400 in
  let mp := if m <=? 2 then m + 9 else m - 3 in
  let doy := (153 * mp + 2) / 5 + d - 1 in
  let doe := yoe * 365 + yoe / 4 - yoe / 100 + doy in
  era * 146097 + doe - 719468.

(** [pd.to_datetime(f'{y}-{m}-{d}')] on a well-formed date. *)
Definition to_datetime (y m d : Z) : Timestamp := days_from_civil y m d.

Definition timedelta (days : Z) : Z := days.

(** ** Values *)

(** A [PR] or budget value: a rational, or pandas' NaN. *)
Abbreviation num := (option Qc).
Abbreviation NaN := (@None Qc).
Definition Num (q : Q) : num := Some (Q2Qc q).

Record Row := mkRow { Date : Timestamp; GHI : float; PR : num }.

Abbreviation DataFrame := (list Row).

(** ** Exceptions, files and the state of a run *)

Inductive exn :=
| KeyError (key : string)
| ValueError (msg : string).

Inductive outcome (A : Type) :=
| Raise (e : exn)
| Return (a : A).
Arguments Raise {A} e.
Arguments Return {A} a.

(** ** Derived columns of [plot_pr_evolution] *)

Inductive color := navy | lightblue | orange | brown.

(** The local function [get_color] (lines 92 to 100); [2 <= ghi < 4] is
    Python's chained comparison, the conjunction of its two halves. *)
Definition get_color (ghi : float) : color :=
  if (ghi <? 2)%float then navy
  else if ((2 <=? ghi) && (ghi <? 4))%float then lightblue
  else if ((4 <=? ghi) && (ghi <? 6))%float then orange
  else brown.

Definition Qcsum (xs : list Qc) : Qc := foldr Qcplus 0%Qc xs.

Definition Qc_of_nat (n : nat) : Qc := Q2Qc (inject_Z (Z.of_nat n)).

(** The observations of a window: pandas skips NaN. *)
Definition observations (xs : list num) : list Qc := omap id xs.

(** Mean of the observations of [xs], NaN when there are fewer than
    [min_periods] of them, or none. *)
Definition mean_obs (min_periods : nat) (xs : list num) : num :=
  let obs := observations xs in
  match obs with
  | [] => NaN
  | _ => if (length obs <? min_periods)%nat then NaN
         else Some (Qcsum obs / Qc_of_nat (length obs))%Qc
  end.

(** [Series.mean()]. *)
Definition Series_mean (xs : list num) : num := mean_obs 0 xs.

(** The rows [i - window + 1 .. i] of a column, cut at the first row. *)
Definition trailing (window i : nat) (col : list num) : list num :=
  drop (S i - window) (take (S i) col).

(** [col.rolling(window, min_periods).mean()] (line 83): the mean of the
    observations of each trailing window. *)
Definition rolling_mean (window min_periods : nat) (col : list num) : list num :=
  imap (λ i _, mean_obs min_periods (trailing window i col)) col.

(** [range(a, b)]. *)
Definition range (a b : Z) : list Z := seqZ a (b - a).

Definition budget_default : Qc := Q2Qc 73.9.

(** [73.9 * (0.992 ** (year - 2019))]. *)
Definition budget_value (year : Z) : Qc :=
  (Q2Qc 73.9 * Q2Qc 0.992 ^ Z.to_nat (year - 2019))%Qc.

(** [col[mask] = v]. *)
Definition loc_assign {A} (mask : list bool) (v : A) (col : list A) : list A :=
  zip_with (λ (m : bool) old, if m then v else old) mask col.

(** One turn of the loop over the years (lines 87 to 90). *)
Definition budget_step (dates : list Timestamp) (col : list Qc) (year : Z) : list Qc :=
  let start := to_datetime year 7 1 in
  let end_ := to_datetime (year + 1) 6 30 in
  let mask := (λ d, (start <=? d) && (d <=? end_)) <$> dates in
  loc_assign mask (budget_value year) col.

(** The column [Budget_PR]: 73.9 in every row (line 85), then the loop
    over [range(2019, 2023)]. *)
Definition budget_column (dates : list Timestamp) : list Qc :=
  foldl (budget_step dates) (replicate (length dates) budget_default)
        (range 2019 2023).

(** [recent_data] and [avg_pr] of one period (lines 114 and 115). *)
Definition recent_data (df : DataFrame) (last_date : Timestamp) (period : Z) : DataFrame :=
  filter (λ r, last_date - timedelta period < Date r) df.

Definition avg_pr (df : DataFrame) (last_date : Timestamp) (period : Z) : num :=
  match recent_data df last_date period with
  | [] => Num 0
  | recent => Series_mean (PR <$> recent)
  end.

Definition periods : list Z := [7; 30; 60].

(** The filtered frame with its three added columns, and the lines of the
    text box as (period, average) pairs: what is handed to the renderer. *)
Record Figure := mkFigure {
  frame : DataFrame;
  PR_MA30 : list num;
  Budget_PR : list Qc;
  Color : list color;
  text : list (Z * num)
}.

(** The rows kept by the filter of lines 77 and 78. *)
Definition in_range (start_date end_date : Timestamp) (df : DataFrame) : DataFrame :=
  filter (λ r, start_date ≤ Date r ∧ Date r ≤ end_date) df.

Definition empty_range_msg : string :=
  "No data available in the specified date range.".

(** Lines 77 to 116 of [plot_pr_evolution]: everything up to the call of
    the renderer. *)
Definition analyze (df : DataFrame) (start_date end_date : Timestamp) : outcome Figure :=
  match in_range start_date end_date df with
  | [] => Raise (ValueError empty_range_msg)
  | r0 :: rest =>
      let df := r0 :: rest in
      let last_date := foldl Z.max (Date r0) (Date <$> rest) in
      Return {| frame := df;
                PR_MA30 := rolling_mean 30 1 (PR <$> df);
                Budget_PR := budget_column (Date <$> df);
                Color := get_color <$> (GHI <$> df);
                text := (λ period, (period, avg_pr df last_date period)) <$> periods |}
  end.

(** ** Files and the run *)

Inductive file :=
| CsvFile (table : DataFrame)
| PngFile (fig : Figure).

Abbreviation files := (gmap string file).

(** A computation that may write files and may raise. *)
Definition io (A : Type) : Type := files → outcome A * files.

Definition io_ret {A} (a : A) : io A := λ fs, (Return a, fs).
Definition io_bind {A B} (m : io A) (k : A → io B) : io B :=
  λ fs, match m fs with
        | (Raise e, fs') => (Raise e, fs')
        | (Return a, fs') => k a fs'
        end.
Definition io_lift {A} (o : outcome A) : io A := λ fs, (o, fs).
Definition write_file (path : string) (f : file) : io unit :=
  λ fs, (Return tt, <[path := f]> fs).

Notation "'let*' x := m 'in' k" := (io_bind m (λ x, k))
  (at level 10, x name, m at level 100, k at level 200).

(** [d[k]] on a dictionary keyed by day. *)
Definition getitem {V} (d : gmap Timestamp V) (k : Timestamp) : outcome V :=
  match d !! k with
  | Some v => Return v
  | None => Raise (KeyError "date")
  end.

(** The loop of lines 62 to 66 over the sorted common keys. *)
Fixpoint merge_loop (ghi_dict : gmap Timestamp float) (pr_dict : gmap Timestamp num)
    (dates : list Timestamp) : outcome (list Row) :=
  match dates with
  | [] => Return []
  | date :: dates =>
      match getitem ghi_dict date with
      | Raise e => Raise e
      | Return ghi =>
          match getitem pr_dict date with
          | Raise e => Raise e
          | Return pr =>
              match merge_loop ghi_dict pr_dict dates with
              | Raise e => Raise e
              | Return rows => Return (mkRow date ghi pr :: rows)
              end
          end
      end
  end.

(** [sorted(set(ghi_dict.keys()) & set(pr_dict.keys()))]. *)
Definition common_dates (ghi_dict : gmap Timestamp float) (pr_dict : gmap Timestamp num)
    : list Timestamp :=
  merge_sort Z.le (elements (dom ghi_dict ∩ dom pr_dict)).

Definition merged_rows (ghi_dict : gmap Timestamp float) (pr_dict : gmap Timestamp num)
    : outcome (list Row) :=
  merge_loop ghi_dict pr_dict (common_dates ghi_dict pr_dict).

Definition Date_le (r1 r2 : Row) : Prop := Date r1 ≤ Date r2.
#[local] Instance Date_le_dec : RelDecision Date_le.
Proof. intros r1 r2. unfold Date_le. apply _. Defined.

(** [pd.DataFrame(records).sort_values('Date').reset_index(drop=True)]: a
    frame built from an empty list of records has no column at all, and
    sorting it by ['Date'] raises [KeyError]. *)
Definition sort_values_Date (records : list Row) : outcome DataFrame :=
  match records with
  | [] => Raise (KeyError "Date")
  | _ => Return (merge_sort Date_le records)
  end.

(** [process_data], from the point where both dictionaries are built
    (lines 61 to 72); [to_csv] is the write of the file. *)
Definition process_data (ghi_dict : gmap Timestamp float) (pr_dict : gmap Timestamp num)
    (output_file : string) : io DataFrame :=
  let* rows := io_lift (merged_rows ghi_dict pr_dict) in
  let* combined_df := io_lift (sort_values_Date rows) in
  let* _ := write_file output_file (CsvFile combined_df) in
  io_ret combined_df.

(** [plot_pr_evolution]: the analysis, then [savefig] (line 127). *)
Definition plot_pr_evolution (df : DataFrame) (start_date end_date : Timestamp)
    (output_file : string) : io unit :=
  let* fig := io_lift (analyze df start_date end_date) in
  write_file output_file (PngFile fig).

Record Args := mkArgs {
  output_csv : string;
  output_plot : string;
  start_date : Timestamp;
  end_date : Timestamp
}.

(** [main] (lines 143 to 145), on the dictionaries that the two
    directories give. *)
Definition main (ghi_dict : gmap Timestamp float) (pr_dict : gmap Timestamp num)
    (args : Args) : io unit :=
  let* df := process_data ghi_dict pr_dict (output_csv args) in
  plot_pr_evolution df (start_date args) (end_date args) (output_plot args).

(** ** Reading the two directories (lines 16 to 59)

    The calls into Python's string and path functions are modelled on the
    characters of the strings; [strip] and [capitalize] on ASCII column
    names (on other characters Python follows Unicode).  What pandas does
    to the content of a file is taken as given: the content of a file is
    what [read_csv] makes of it, a frame or an exception, and the two
    conversions to dates are parameters. *)

Definition chars (s : string) : list ascii := String.list_ascii_of_string s.
Definition of_chars (l : list ascii) : string := String.string_of_list_ascii l.

(** [s.startswith(prefix)] and [s.endswith(suffix)]. *)
Definition startswith (s prefix : string) : bool :=
  bool_decide (chars prefix `prefix_of` chars s).
Definition endswith (s suffix : string) : bool :=
  bool_decide (chars suffix `suffix_of` chars s).

(** [os.path.join(a, b)], on POSIX paths. *)
Definition path_join (a b : string) : string :=
  if startswith b "/" then b
  else if bool_decide (a = "") || endswith a "/" then a +:+ b
  else a +:+ "/" +:+ b.

(** [os.path.basename(p)]: what follows the last slash. *)
Definition basename (p : string) : string :=
  of_chars (foldl (λ acc c, if bool_decide (c = "/"%char) then [] else acc ++ [c])
                  [] (chars p)).

(** [s.replace(old, new)]: every occurrence of [old], from the left,
    without overlap; [skip] counts the characters of an occurrence that are
    still to be passed. *)
Fixpoint replace_chars (old new : list ascii) (skip : nat) (s : list ascii)
    : list ascii :=
  match s with
  | [] => []
  | c :: s' =>
      match skip with
      | S k => replace_chars old new k s'
      | O => if bool_decide (old `prefix_of` c :: s')
             then new ++ replace_chars old new (pred (length old)) s'
             else c :: replace_chars old new 0 s'
      end
  end.

Definition str_replace (s old new : string) : string :=
  match chars old with
  | [] => of_chars (chars new ++ flat_map (λ c, c :: chars new) (chars s))
  | _ => of_chars (replace_chars (chars old) (chars new) 0 (chars s))
  end.

(** [c.isspace()], [c.upper()] and [c.lower()] on ASCII characters. *)
Definition isspace (c : ascii) : bool :=
  let n := nat_of_ascii c in
  ((9 <=? n) && (n <=? 13) || (28 <=? n) && (n <=? 32))%nat.
Definition upper (c : ascii) : ascii :=
  let n := nat_of_ascii c in
  if ((97 <=? n) && (n <=? 122))%nat then ascii_of_nat (n - 32) else c.
Definition lower (c : ascii) : ascii :=
  let n := nat_of_ascii c in
  if ((65 <=? n) && (n <=? 90))%nat then ascii_of_nat (n + 32) else c.

Fixpoint lstrip (s : list ascii) : list ascii :=
  match s with
  | c :: s' => if isspace c then lstrip s' else s
  | [] => []
  end.
Definition strip (s : list ascii) : list ascii :=
  reverse (lstrip (reverse (lstrip s))).
Definition capitalize (s : list ascii) : list ascii :=
  match s with
  | [] => []
  | c :: s' => upper c :: (lower <$> s')
  end.

(** [col.strip().capitalize()]. *)
Definition strip_capitalize (col : string) : string :=
  of_chars (capitalize (strip (chars col))).

(** A directory: its files, with what they hold, and its subdirectories,
    each list in the order in which the system lists it. *)
#[local] Set Warnings "-register-all".
Inductive Dir (F : Type) :=
| mkDir (entries : list (string * F)) (subdirs : list (string * Dir F)).
Arguments mkDir {F} entries subdirs.

(** The local generator [find_csv_files]: [os.walk] visits a directory
    before its subdirectories. *)
Fixpoint find_csv_files {F} (directory : string) (tree : Dir F)
    : list (string * F) :=
  match tree with
  | mkDir entries subdirs =>
      ((λ nf, (path_join directory nf.1, nf.2))
         <$> filter (λ nf, endswith nf.1 ".csv" = true) entries)
      ++ (fix walk (ds : list (string * Dir F)) : list (string * F) :=
            match ds with
            | [] => []
            | (name, sub) :: ds =>
                find_csv_files (path_join directory name) sub ++ walk ds
            end) subdirs
  end.

(** A frame as [read_csv] returns it: its columns in order, each with its
    name and its cells. *)
Abbreviation Table C := (list (string * list C)).

(** What one file contributes. *)
Inductive observation (C : Type) :=
| Skipped
| Failed (e : exn)
| Found (date : Timestamp) (row : list C).
Arguments Skipped {C}.
Arguments Failed {C} e.
Arguments Found {C} date row.

Section extractor.
Context {C D : Type}.

(** [pd.to_datetime(date_str, format='%Y-%m-%d')]: an exception, NaT
    ([None]) or a day. *)
Variable to_datetime_format : string → outcome (option Timestamp).

(** [pd.to_datetime(column, errors='coerce')] on one column, and the
    comparison [==] of one of its values with a day. *)
Variable to_datetime_coerce : list C → outcome (list D).
Variable eq_Timestamp : D → Timestamp → bool.

(** [df[name]]: the cells of every column of that name. *)
Definition columns_named (name : string) (df : Table C) : list (list C) :=
  (filter (λ col, col.1 = name) df).*2.

(** The position of the first row that the mask keeps. *)
Fixpoint first_true (mask : list bool) : option nat :=
  match mask with
  | [] => None
  | b :: mask => if b then Some 0%nat else S <$> first_true mask
  end.

(** The body of the loop over the files (lines 26 to 40, and 45 to 59
    with ['Pr'] for ['Ghi']): [value] is the name of the column of values
    after normalisation.  With several columns named ['Date'], [df['Date']]
    is a frame and [pd.to_datetime] refuses it.  The row that is kept is
    the first one that the mask keeps, given here by its cells in the
    columns of values. *)
Definition read_observation (value file_path : string)
    (content : outcome (Table C)) : observation C :=
  let file_name := basename file_path in
  let date_str := str_replace file_name ".csv" "" in
  match to_datetime_format date_str with
  | Raise _ => Skipped
  | Return expected_date =>
      match content with
      | Raise e => Failed e
      | Return df =>
          let df := prod_map strip_capitalize id <$> df in
          if bool_decide ("Date" ∉ df.*1) || bool_decide (value ∉ df.*1)
          then Skipped
          else
            match columns_named "Date" df with
            | [dates] =>
                match to_datetime_coerce dates with
                | Raise e => Failed e
                | Return parsed =>
                    match expected_date with
                    | None => Skipped
                    | Some d =>
                        match first_true ((λ x, eq_Timestamp x d) <$> parsed) with
                        | None => Skipped
                        | Some k =>
                            Found d (omap (λ col, col !! k)
                                          (columns_named value df))
                        end
                    end
                end
            | _ => Failed (ValueError "cannot assemble with duplicate keys")
            end
      end
  end.

(** The loop over the files the generator yields, from the dictionary
    built so far. *)
Fixpoint read_files (value : string) (found : list (string * outcome (Table C)))
    (dict : gmap Timestamp (list C)) : outcome (gmap Timestamp (list C)) :=
  match found with
  | [] => Return dict
  | (file_path, content) :: found =>
      match read_observation value file_path content with
      | Skipped => read_files value found dict
      | Failed e => Raise e
      | Found d row => read_files value found (<[d := row]> dict)
      end
  end.

(** [ghi_dict] for ["Ghi"], [pr_dict] for ["Pr"]. *)
Definition read_index (value directory : string)
    (tree : Dir (outcome (Table C))) : outcome (gmap Timestamp (list C)) :=
  read_files value (find_csv_files directory tree) ∅.

End extractor.

(** * The specification's side *)

(** ** What the statements are written with *)

(** Where a binary64 value lies with respect to a positive finite one,
    [mc * 2 ^ ec]: as the comparison of floats does, exponent first. *)
Definition sf_lt_pos (s : spec_float) (mc : positive) (ec : Z) : Prop :=
  match s with
  | S754_nan => False
  | S754_infinity b => b = true
  | S754_zero _ => True
  | S754_finite true _ _ => True
  | S754_finite false m e => e < ec ∨ (e = ec ∧ Z.pos m < Z.pos mc)
  end.

Definition sf_ge_pos (s : spec_float) (mc : positive) (ec : Z) : Prop :=
  match s with
  | S754_nan => False
  | S754_infinity b => b = false
  | S754_zero _ => False
  | S754_finite true _ _ => False
  | S754_finite false m e => ec < e ∨ (e = ec ∧ Z.pos mc ≤ Z.pos m)
  end.

(** The budget of one row: the loop over the years, seen from a row dated
    [d]. *)
Definition budget_of (d : Timestamp) : Qc :=
  foldl (λ b year,
           if (to_datetime year 7 1 <=? d) && (d <=? to_datetime (year + 1) 6 30)
           then budget_value year else b)
        budget_default (range 2019 2023).

(** Row [i] is the [S i]-th row seen in the range: the indices of the
    trailing min(30, rows seen so far) rows that end at row [i]. *)
Definition window_indices (i : nat) : list nat :=
  let k := (30 `min` S i)%nat in seq (S i - k) k.

Definition window_rows (df : DataFrame) (i : nat) : list Row :=
  omap (λ j, df !! j) (window_indices i).

Definition arithmetic_mean (xs : list Qc) : Qc :=
  (Qcsum xs / Qc_of_nat (length xs))%Qc.

(** Mean of the values that are not missing, NaN when all are. *)
Definition mean_of_present (xs : list num) : num :=
  match observations xs with
  | [] => NaN
  | obs => Some (arithmetic_mean obs)
  end.

(** ** What the statements on the reading are written with *)

(** A name without a blank at either end, as [strip] returns it. *)
Definition clean (y : list ascii) : Prop :=
  lstrip y = y ∧ lstrip (reverse y) = reverse y.

(** The file [name], holding [f], is in the directory reached from the
    top of [tree] through the subdirectories [dirs]. *)
Inductive file_in {F} : Dir F → list string → string → F → Prop :=
| file_here entries subdirs name f :
    (name, f) ∈ entries → file_in (mkDir entries subdirs) [] name f
| file_below entries subdirs d sub dirs name f :
    (d, sub) ∈ subdirs → file_in sub dirs name f →
    file_in (mkDir entries subdirs) (d :: dirs) name f.

Section found.
Context {C D : Type}.
Variable to_datetime_format : string → outcome (option Timestamp).
Variable to_datetime_coerce : list C → outcome (list D).
Variable eq_Timestamp : D → Timestamp → bool.

(** The rows that the files of a list contribute for the day [d], in the
    order of the files. *)
Definition rows_found (value : string) (d : Timestamp)
    (found : list (string * outcome (Table C))) : list (list C) :=
  omap (λ pf, match read_observation to_datetime_format to_datetime_coerce
                      eq_Timestamp value pf.1 pf.2 with
              | Found d' row => if bool_decide (d' = d) then Some row else None
              | _ => None
              end) found.

End found.

(** ** Sample data *)

(** The days [2021-01-a .. 2021-01-b] as a set of keys. *)
Definition january_2021 (a b : Z) : gset Timestamp :=
  list_to_set (to_datetime 2021 1 <$> seqZ a (b - a + 1)).

(** A row of given date, with some GHI and PR. *)
Definition row_on (y m d : Z) : Row := mkRow (to_datetime y m d) 3%float (Num 70).

(** A row of PR [pr], on day [d] of January 2021. *)
Definition pr_row (d : Z) (pr : num) : Row :=
  mkRow (to_datetime 2021 1 d) 3%float pr.

(** The table of the empty-range scenario: rows in 2021 only. *)
Definition table_2021 : DataFrame :=
  [pr_row 3 (Num 70); pr_row 4 (Num 71); pr_row 5 (Num 72)].

(** GHI for 2021-01-01 .. 2021-01-05 and PR for 2021-01-03 .. 2021-01-07. *)
Definition ghi_2021 : gmap Timestamp float :=
  list_to_map ((λ d, (to_datetime 2021 1 d, 3%float)) <$> [1; 2; 3; 4; 5]).
Definition pr_2021 : gmap Timestamp num :=
  list_to_map ((λ d, (to_datetime 2021 1 d, Num 70)) <$> [3; 4; 5; 6; 7]).

(** The default paths, and the year 2022 as the range. *)
Definition args_2022 : Args :=
  mkArgs "output/combined_data.csv" "output/pr_evolution.png"
         (to_datetime 2022 1 1) (to_datetime 2022 12 31).

(** A reading of dates for the examples.  Cells are days, numbers or
    text; a name is a day when it has the ten characters YYYY-MM-DD of a
    day of the calendar; a cell that is not a day is NaT ([None]). *)
Inductive cell :=
| Day (d : Timestamp)
| Number (x : float)
| Text (s : string).

Definition digit (c : ascii) : option Z :=
  let n := nat_of_ascii c in
  if ((48 <=? n) && (n <=? 57))%nat then Some (Z.of_nat n - 48) else None.

Definition digits (cs : list ascii) : option Z :=
  foldl (λ acc c, a ← acc; n ← digit c; Some (10 * a + n)) (Some 0) cs.

Definition days_in_month (y m : Z) : Z :=
  if bool_decide (m = 2)
  then if bool_decide (y mod 4 = 0 ∧ (y mod 100 ≠ 0 ∨ y mod 400 = 0))
       then 29 else 28
  else if bool_decide (m ∈ [4; 6; 9; 11]) then 30 else 31.

Definition no_match : exn := ValueError "time data doesn't match format".

Definition sample_format (s : string) : outcome (option Timestamp) :=
  match chars s with
  | [y1; y2; y3; y4; dash1; m1; m2; dash2; d1; d2] =>
      match digits [y1; y2; y3; y4], digits [m1; m2], digits [d1; d2] with
      | Some y, Some m, Some d =>
          if bool_decide (dash1 = "-"%char ∧ dash2 = "-"%char
                          ∧ 1 ≤ m ≤ 12 ∧ 1 ≤ d ≤ days_in_month y m)
          then Return (Some (to_datetime y m d))
          else Raise no_match
      | _, _, _ => Raise no_match
      end
  | _ => Raise no_match
  end.

Definition sample_coerce (col : list cell) : outcome (list (option Timestamp)) :=
  Return ((λ c, match c with Day d => Some d | _ => None end) <$> col).

Definition sample_eq (x : option Timestamp) (d : Timestamp) : bool :=
  bool_decide (x = Some d).

(** A file of two rows, for the eve of day [d] of January 2021 and for
    the day itself, under the names [" date"] and ["GHI "]. *)
Definition ghi_file (d : Z) (x : float) : outcome (Table cell) :=
  Return [(" date", [Day (to_datetime 2021 1 (d - 1)); Day (to_datetime 2021 1 d)]);
          ("GHI ", [Number 0%float; Number x])].

(** A directory with a file for 2021-01-01, an empty file whose name is
    no date, a file that is no CSV file, and an older file for the same
    day in a subdirectory. *)
Definition ghi_tree : Dir (outcome (Table cell)) :=
  mkDir [("2021-01-01.csv", ghi_file 1 3%float);
         ("notes.csv", Raise (ValueError "No columns to parse from file"));
         ("2021-01-02.txt", ghi_file 2 5%float)]
        [("old", mkDir [("2021-01-01.csv", ghi_file 1 4%float)] [])].

(** * Properties *)

#[local] Instance Date_le_total : Total Date_le.
Proof. intros r1 r2. unfold Date_le. lia. Qed.

(** ** The reconciled table *)

Section reconcile.
Context (ghi_dict : gmap Timestamp float) (pr_dict : gmap Timestamp num).

Lemma elem_of_common_dates d :
  d ∈ common_dates ghi_dict pr_dict ↔
  is_Some (ghi_dict !! d) ∧ is_Some (pr_dict !! d).
Proof.
  unfold common_dates. rewrite merge_sort_Permutation, elem_of_elements.
  by rewrite elem_of_intersection, !elem_of_dom.
Qed.

Lemma common_dates_NoDup : NoDup (common_dates ghi_dict pr_dict).
Proof.
  unfold common_dates. rewrite merge_sort_Permutation. apply NoDup_elements.
Qed.

Lemma common_dates_Sorted : Sorted Z.le (common_dates ghi_dict pr_dict).
Proof. apply (Sorted_merge_sort Z.le). Qed.
End reconcile.

(** A sorted list without repetition is strictly increasing. *)
Lemma Sorted_le_NoDup_lt (l : list Z) :
  Sorted Z.le l → NoDup l → StronglySorted Z.lt l.
Proof.
  intros Hs%(Sorted_StronglySorted Z.le). induction Hs as [|x l _ IH Hx].
  - constructor.
  - intros [Hnin Hnd]%NoDup_cons. constructor; [by apply IH|].
    rewrite Forall_forall in *. intros y Hy.
    specialize (Hx y Hy). assert (x ≠ y) by (intros ->; done). lia.
Qed.

Lemma StronglySorted_lt_NoDup (l : list Z) :
  StronglySorted Z.lt l → NoDup l.
Proof.
  induction 1 as [|x l _ IH Hx]; constructor; [|done].
  intros Hin. rewrite Forall_forall in Hx. specialize (Hx x Hin). lia.
Qed.

(** The loop never raises on keys taken from both dictionaries, and makes
    one row per key, in the order of the keys. *)
Lemma merge_loop_Return ghi_dict pr_dict dates :
  Forall (λ d, is_Some (ghi_dict !! d) ∧ is_Some (pr_dict !! d)) dates →
  ∃ rows, merge_loop ghi_dict pr_dict dates = Return rows
          ∧ Date <$> rows = dates
          ∧ Forall (λ r, ghi_dict !! Date r = Some (GHI r)
                         ∧ pr_dict !! Date r = Some (PR r)) rows.
Proof.
  induction 1 as [|d dates [[g Hg] [p Hp]] _ (rows & Hrows & Hdates & Hvals)].
  - by exists [].
  - exists (mkRow d g p :: rows). simpl. unfold getitem.
    rewrite Hg, Hp, Hrows. split; [done|]. split; [by f_equal|].
    by constructor.
Qed.

Lemma fmap_Date_merge_sort (rows : list Row) :
  Sorted Z.le (Date <$> rows) →
  Date <$> merge_sort Date_le rows = Date <$> rows.
Proof.
  intros Hs. apply (Sorted_unique Z.le); [|done|].
  - eapply Sorted_fmap; [|apply (Sorted_merge_sort Date_le)]. done.
  - by rewrite merge_sort_Permutation.
Qed.

(** What [process_data] does, by whether the two dictionaries share a day. *)
Lemma process_data_disjoint ghi_dict pr_dict output_file fs :
  common_dates ghi_dict pr_dict = [] →
  process_data ghi_dict pr_dict output_file fs = (Raise (KeyError "Date"), fs).
Proof.
  intros He. unfold process_data, io_bind, io_lift, merged_rows.
  by rewrite He.
Qed.

Lemma process_data_common ghi_dict pr_dict output_file fs :
  common_dates ghi_dict pr_dict ≠ [] →
  ∃ df, process_data ghi_dict pr_dict output_file fs
          = (Return df, <[output_file := CsvFile df]> fs)
        ∧ Date <$> df = common_dates ghi_dict pr_dict
        ∧ Forall (λ r, ghi_dict !! Date r = Some (GHI r)
                       ∧ pr_dict !! Date r = Some (PR r)) df.
Proof.
  intros Hne.
  destruct (merge_loop_Return ghi_dict pr_dict (common_dates ghi_dict pr_dict))
    as (rows & Hrows & Hdates & Hvals).
  { apply Forall_forall. intros d. apply elem_of_common_dates. }
  exists (merge_sort Date_le rows).
  unfold process_data, io_bind, io_lift, merged_rows, write_file, io_ret.
  rewrite Hrows. destruct rows as [|r rows]; [by rewrite <- Hdates in Hne|].
  simpl sort_values_Date. cbv iota. split; [done|]. split.
  - rewrite fmap_Date_merge_sort; [done|].
    rewrite Hdates. apply common_dates_Sorted.
  - by rewrite merge_sort_Permutation.
Qed.

(** C1.  Whatever the two source indices are: a day is a date of the
    reconciled table returned by [process_data] exactly when both the GHI
    index and the PR index have an observation for that day; the dates of
    the returned table are strictly increasing, hence without repetition;
    and with GHI observations for 2021-01-01 .. 2021-01-05 and PR
    observations for 2021-01-03 .. 2021-01-07 the table has exactly the
    rows of 2021-01-03, 2021-01-04 and 2021-01-05, in that order. *)
Theorem reconciled_table_dates :
  (∀ ghi_dict pr_dict output_file fs d,
     (∃ df fs', process_data ghi_dict pr_dict output_file fs = (Return df, fs')
                ∧ d ∈ Date <$> df)
     ↔ is_Some (ghi_dict !! d) ∧ is_Some (pr_dict !! d))
  ∧ (∀ ghi_dict pr_dict output_file fs df fs',
       process_data ghi_dict pr_dict output_file fs = (Return df, fs') →
       StronglySorted Z.lt (Date <$> df) ∧ NoDup (Date <$> df))
  ∧ (∀ ghi_dict pr_dict output_file fs,
       dom ghi_dict = january_2021 1 5 →
       dom pr_dict = january_2021 3 7 →
       ∃ df fs', process_data ghi_dict pr_dict output_file fs = (Return df, fs')
                 ∧ Date <$> df = [to_datetime 2021 1 3; to_datetime 2021 1 4;
                                  to_datetime 2021 1 5]).
Proof.
  assert (Hdates : ∀ ghi_dict pr_dict output_file fs df fs',
    process_data ghi_dict pr_dict output_file fs = (Return df, fs') →
    Date <$> df = common_dates ghi_dict pr_dict).
  { intros g p o fs df fs' Hrun.
    destruct (common_dates g p) as [|d0 ds] eqn:Hc.
    - by rewrite process_data_disjoint in Hrun.
    - destruct (process_data_common g p o fs) as (df' & Hrun' & Hd & _);
        [by rewrite Hc|].
      rewrite Hrun' in Hrun. injection Hrun as -> _. by rewrite Hd, Hc. }
  split; [|split].
  - intros g p o fs d. rewrite <- elem_of_common_dates. split.
    + intros (df & fs' & Hrun & Hd). by rewrite <- (Hdates _ _ _ _ _ _ Hrun).
    + intros Hd.
      destruct (process_data_common g p o fs) as (df & Hrun & Hdf & _).
      { intros He. rewrite He in Hd. by apply elem_of_nil in Hd. }
      exists df, (<[o := CsvFile df]> fs). by rewrite Hdf.
  - intros g p o fs df fs' Hrun. rewrite (Hdates _ _ _ _ _ _ Hrun).
    assert (StronglySorted Z.lt (common_dates g p)) as Hs
      by (apply Sorted_le_NoDup_lt;
          [apply common_dates_Sorted | apply common_dates_NoDup]).
    split; [done | by apply StronglySorted_lt_NoDup].
  - intros g p o fs Hg Hp.
    assert (common_dates g p = [to_datetime 2021 1 3; to_datetime 2021 1 4;
                                to_datetime 2021 1 5]) as Hc.
    { unfold common_dates. rewrite Hg, Hp. by vm_compute. }
    destruct (process_data_common g p o fs) as (df & Hrun & Hdf & _);
      [by rewrite Hc|].
    exists df, (<[o := CsvFile df]> fs). by rewrite Hdf, Hc.
Qed.

(** ** Colour buckets *)

Lemma SFltb_pos s mc ec :
  SFltb s (S754_finite false mc ec) = true ↔ sf_lt_pos s mc ec.
Proof.
  destruct s as [[]|[]| |[] m e]; simpl; try done.
  unfold SFltb; simpl. change (Pos.compare_cont Eq m mc) with (m ?= mc)%positive.
  destruct (Z.compare_spec e ec), (Pos.compare_spec m mc); split; try done; lia.
Qed.

Lemma SFleb_pos s mc ec :
  SFleb (S754_finite false mc ec) s = true ↔ sf_ge_pos s mc ec.
Proof.
  destruct s as [[]|[]| |[] m e]; simpl; try done.
  unfold SFleb; simpl. change (Pos.compare_cont Eq mc m) with (mc ?= m)%positive.
  destruct (Z.compare_spec ec e), (Pos.compare_spec mc m); split; try done; lia.
Qed.

(** The three thresholds: 2 = 2^52 * 2^-51, 4 = 2^52 * 2^-50 and
    6 = 3 * 2^51 * 2^-50. *)
Lemma ltb_2 ghi :
  (ghi <? 2)%float = true ↔ sf_lt_pos (Prim2SF ghi) 4503599627370496 (-51).
Proof. rewrite FloatAxioms.ltb_spec. apply SFltb_pos. Qed.
Lemma ltb_4 ghi :
  (ghi <? 4)%float = true ↔ sf_lt_pos (Prim2SF ghi) 4503599627370496 (-50).
Proof. rewrite FloatAxioms.ltb_spec. apply SFltb_pos. Qed.
Lemma ltb_6 ghi :
  (ghi <? 6)%float = true ↔ sf_lt_pos (Prim2SF ghi) 6755399441055744 (-50).
Proof. rewrite FloatAxioms.ltb_spec. apply SFltb_pos. Qed.
Lemma leb_2 ghi :
  (2 <=? ghi)%float = true ↔ sf_ge_pos (Prim2SF ghi) 4503599627370496 (-51).
Proof. rewrite FloatAxioms.leb_spec. apply SFleb_pos. Qed.
Lemma leb_4 ghi :
  (4 <=? ghi)%float = true ↔ sf_ge_pos (Prim2SF ghi) 4503599627370496 (-50).
Proof. rewrite FloatAxioms.leb_spec. apply SFleb_pos. Qed.
Lemma leb_6 ghi :
  (6 <=? ghi)%float = true ↔ sf_ge_pos (Prim2SF ghi) 6755399441055744 (-50).
Proof. rewrite FloatAxioms.leb_spec. apply SFleb_pos. Qed.

Lemma is_nan_Prim2SF ghi : is_nan ghi = true ↔ Prim2SF ghi = S754_nan.
Proof.
  unfold is_nan. rewrite FloatAxioms.eqb_spec, negb_true_iff.
  destruct (Prim2SF ghi) as [[]|[]| |[] m e]; unfold SFeqb; simpl;
    rewrite ?Z.compare_refl, ?Pcompare_refl; split; done.
Qed.

(** Turn every comparison of [ghi] with a threshold, as a hypothesis or in
    the goal, into the position of its binary64 value. *)
Ltac thresholds :=
  rewrite ?andb_true_iff, ?andb_false_iff, <- ?not_true_iff_false in *;
  rewrite ?ltb_2, ?ltb_4, ?ltb_6, ?leb_2, ?leb_4, ?leb_6, ?is_nan_Prim2SF in *.

Ltac by_position ghi :=
  thresholds; destruct (Prim2SF ghi) as [[]|[]| |[] ? ?]; simpl in *;
  first [done | lia | intuition (first [done | lia])].

Lemma analyze_columns df start_date end_date fig :
  analyze df start_date end_date = Return fig →
  frame fig = in_range start_date end_date df
  ∧ frame fig ≠ []
  ∧ PR_MA30 fig = rolling_mean 30 1 (PR <$> frame fig)
  ∧ Budget_PR fig = budget_column (Date <$> frame fig)
  ∧ Color fig = get_color <$> (GHI <$> frame fig).
Proof.
  unfold analyze. destruct (in_range start_date end_date df) as [|r0 rest];
    [done|].
  intros [= <-]. done.
Qed.

#[local] Set Warnings "-inexact-float".

(** C8.  Every row of the analysis gets the colour [get_color] of its GHI,
    and [get_color] puts GHI < 2 in navy, 2 <= GHI < 4 in lightblue,
    4 <= GHI < 6 in orange and GHI >= 6 in brown; the boundaries are exact:
    1.999 is navy, 2.0 and 3.999 are lightblue, 4.0 and 5.999 are orange and
    6.0 is brown. *)
Theorem get_color_buckets :
  (∀ df start_date end_date fig i r,
     analyze df start_date end_date = Return fig →
     frame fig !! i = Some r → Color fig !! i = Some (get_color (GHI r)))
  ∧ (∀ ghi, (ghi <? 2)%float = true → get_color ghi = navy)
  ∧ (∀ ghi, (2 <=? ghi)%float = true → (ghi <? 4)%float = true →
            get_color ghi = lightblue)
  ∧ (∀ ghi, (4 <=? ghi)%float = true → (ghi <? 6)%float = true →
            get_color ghi = orange)
  ∧ (∀ ghi, (6 <=? ghi)%float = true → get_color ghi = brown)
  ∧ get_color 1.999 = navy
  ∧ get_color 2.0 = lightblue
  ∧ get_color 3.999 = lightblue
  ∧ get_color 4.0 = orange
  ∧ get_color 5.999 = orange
  ∧ get_color 6.0 = brown.
Proof.
  split; [|split; [|split; [|split; [|split]]]].
  - intros df sd ed fig i r (_ & _ & _ & _ & ->)%analyze_columns Hr.
    by rewrite !list_lookup_fmap, Hr.
  - intros ghi H. unfold get_color. by rewrite H.
  - intros ghi H2 H4. unfold get_color. rewrite H2, H4.
    destruct (ghi <? 2)%float eqn:H; [|done]. by_position ghi.
  - intros ghi H4 H6. unfold get_color. rewrite H4, H6.
    destruct (ghi <? 2)%float eqn:Hlt2; [by_position ghi|].
    destruct (ghi <? 4)%float eqn:Hlt4; [by_position ghi|].
    by rewrite andb_false_r.
  - intros ghi H6. unfold get_color.
    destruct (ghi <? 2)%float eqn:Hlt2; [by_position ghi|].
    destruct (ghi <? 4)%float eqn:Hlt4; [by_position ghi|].
    destruct (ghi <? 6)%float eqn:Hlt6; [by_position ghi|].
    by rewrite !andb_false_r.
  - by vm_compute.
Qed.

(** C10.  [get_color] is a total function: a value that falls in none of
    the three lower bins is brown.  Brown is returned exactly for the values
    GHI >= 6 and for NaN; NaN is not >= 6, and is brown all the same. *)
Theorem get_color_total :
  (∀ ghi, (ghi <? 2)%float = false →
          ((2 <=? ghi) && (ghi <? 4))%float = false →
          ((4 <=? ghi) && (ghi <? 6))%float = false →
          get_color ghi = brown)
  ∧ (∀ ghi, get_color ghi = brown ↔
            (6 <=? ghi)%float = true ∨ is_nan ghi = true)
  ∧ is_nan nan = true
  ∧ (6 <=? nan)%float = false
  ∧ get_color nan = brown.
Proof.
  split; [|split].
  - intros ghi H2 H4 H6. unfold get_color. by rewrite H2, H4, H6.
  - intros ghi. unfold get_color.
    destruct (ghi <? 2)%float eqn:Hlt2.
    { split; [done|]. by_position ghi. }
    destruct (2 <=? ghi)%float eqn:Hle2; simpl.
    + destruct (ghi <? 4)%float eqn:Hlt4.
      { split; [done|]. by_position ghi. }
      destruct (4 <=? ghi)%float eqn:Hle4; simpl.
      * destruct (ghi <? 6)%float eqn:Hlt6.
        { split; [done|]. by_position ghi. }
        split; [|done]. intros _. by_position ghi.
      * split; [|done]. intros _. by_position ghi.
    + destruct (4 <=? ghi)%float eqn:Hle4; simpl.
      * destruct (ghi <? 6)%float eqn:Hlt6.
        { split; [done|]. by_position ghi. }
        split; [|done]. intros _. by_position ghi.
      * split; [|done]. intros _. by_position ghi.
  - by vm_compute.
Qed.

(** ** The budget curve *)

Lemma budget_step_lookup dates col year i d b :
  dates !! i = Some d → col !! i = Some b →
  budget_step dates col year !! i =
    Some (if (to_datetime year 7 1 <=? d) && (d <=? to_datetime (year + 1) 6 30)
          then budget_value year else b).
Proof.
  intros Hd Hb. unfold budget_step, loc_assign.
  by rewrite lookup_zip_with, list_lookup_fmap, Hd, Hb.
Qed.

Lemma budget_loop_lookup dates years : ∀ col i d b,
  dates !! i = Some d → col !! i = Some b →
  foldl (budget_step dates) col years !! i =
    Some (foldl (λ b year,
                   if (to_datetime year 7 1 <=? d)
                      && (d <=? to_datetime (year + 1) 6 30)
                   then budget_value year else b) b years).
Proof.
  induction years as [|year years IH]; intros col i d b Hd Hb; [done|].
  simpl. apply IH; [done|]. by apply budget_step_lookup.
Qed.

Lemma budget_column_lookup dates i d :
  dates !! i = Some d → budget_column dates !! i = Some (budget_of d).
Proof.
  intros Hd. unfold budget_column, budget_of.
  apply budget_loop_lookup; [done|].
  apply lookup_replicate_2. by eapply lookup_lt_Some.
Qed.

Lemma analyze_Budget_PR df start_date end_date fig i r :
  analyze df start_date end_date = Return fig →
  frame fig !! i = Some r →
  Budget_PR fig !! i = Some (budget_of (Date r)).
Proof.
  intros (_ & _ & _ & -> & _)%analyze_columns Hr.
  apply budget_column_lookup. by rewrite list_lookup_fmap, Hr.
Qed.

(** Replace every closed date of the goal and of the hypotheses by its day
    number. *)
Ltac eval_dates :=
  repeat match goal with
  | |- context [to_datetime ?y ?m ?d] =>
      let v := eval vm_compute in (to_datetime y m d) in
      change (to_datetime y m d) with v
  | H : context [to_datetime ?y ?m ?d] |- _ =>
      let v := eval vm_compute in (to_datetime y m d) in
      change (to_datetime y m d) with v in H
  end.

Ltac budget_cases :=
  unfold budget_of; change (range 2019 2023) with [2019; 2020; 2021; 2022];
  cbn [foldl]; eval_dates;
  repeat match goal with
  | |- context [?a <=? ?b] => destruct (Z.leb_spec a b); try lia
  end; cbn [andb].

(** Inside the period that starts on July 1 of [Y]. *)
Lemma budget_of_period d Y :
  2019 ≤ Y ≤ 2022 →
  to_datetime Y 7 1 ≤ d ≤ to_datetime (Y + 1) 6 30 →
  budget_of d = budget_value Y.
Proof.
  intros HY Hd.
  assert (Y = 2019 ∨ Y = 2020 ∨ Y = 2021 ∨ Y = 2022) as [->|[->|[->| ->]]]
    by lia; budget_cases; reflexivity.
Qed.

(** Outside the four periods: before 2019-07-01 or after 2023-06-30. *)
Lemma budget_of_outside d :
  d < to_datetime 2019 7 1 ∨ to_datetime 2023 6 30 < d →
  budget_of d = budget_default.
Proof. intros Hd. budget_cases; reflexivity. Qed.

(** Equality and difference of closed rationals, by computing both sides. *)
Ltac Qc_compute := apply Qc_is_canon; vm_compute; reflexivity.

(** C2.  A row of the analysis dated within [July 1 of Y, June 30 of Y+1],
    both ends included, for Y from 2019 to 2022, has the budget value
    73.9 * 0.992 ^ (Y - 2019). *)
Theorem budget_in_period df start_date end_date fig i r Y :
  analyze df start_date end_date = Return fig →
  frame fig !! i = Some r →
  2019 ≤ Y ≤ 2022 →
  to_datetime Y 7 1 ≤ Date r ≤ to_datetime (Y + 1) 6 30 →
  Budget_PR fig !! i = Some (Q2Qc 73.9 * Q2Qc 0.992 ^ Z.to_nat (Y - 2019))%Qc.
Proof.
  intros Hfig Hr HY Hd.
  rewrite (analyze_Budget_PR _ _ _ _ _ _ Hfig Hr).
  by rewrite (budget_of_period _ Y).
Qed.

(** The two ends of the period of 2021: 2021-07-01 and 2022-06-30. *)
Lemma budget_in_period_witness :
  ∃ fig, analyze [row_on 2021 7 1; row_on 2022 6 30]
                 (to_datetime 2019 7 1) (to_datetime 2023 1 1) = Return fig
         ∧ Budget_PR fig !! 0%nat = Some (Q2Qc 73.9 * Q2Qc 0.992 ^ 2)%Qc
         ∧ Budget_PR fig !! 1%nat = Some (Q2Qc 73.9 * Q2Qc 0.992 ^ 2)%Qc.
Proof.
  eexists. split; [reflexivity|]. split.
  - apply (budget_in_period [row_on 2021 7 1; row_on 2022 6 30]
             (to_datetime 2019 7 1) (to_datetime 2023 1 1) _ 0
             (row_on 2021 7 1) 2021);
      [reflexivity | reflexivity | lia | vm_compute; split; discriminate].
  - apply (budget_in_period [row_on 2021 7 1; row_on 2022 6 30]
             (to_datetime 2019 7 1) (to_datetime 2023 1 1) _ 1
             (row_on 2022 6 30) 2021);
      [reflexivity | reflexivity | lia | vm_compute; split; discriminate].
Defined.

(** C3, as the code has it.  2020-01-01 lies in the period that starts on
    2019-07-01, so the budget of a row of that date is 73.9 * 0.992 ^ 0,
    that is 73.9; the value 73.9 * 0.992 ^ 1, which is 73.3088, is the one
    of a row dated 2020-07-01; the budget of a row dated 2019-07-01 is
    exactly 73.9. *)
Theorem budget_2020_01_01_and_2019_07_01 df start_date end_date fig i r :
  analyze df start_date end_date = Return fig →
  frame fig !! i = Some r →
  (Date r = to_datetime 2020 1 1 →
     Budget_PR fig !! i = Some (Q2Qc 73.9 * Q2Qc 0.992 ^ 0)%Qc
     ∧ (Q2Qc 73.9 * Q2Qc 0.992 ^ 0)%Qc = Q2Qc 73.9)
  ∧ (Date r = to_datetime 2020 7 1 →
       Budget_PR fig !! i = Some (Q2Qc 73.9 * Q2Qc 0.992 ^ 1)%Qc
       ∧ (Q2Qc 73.9 * Q2Qc 0.992 ^ 1)%Qc = Q2Qc 73.3088)
  ∧ (Date r = to_datetime 2019 7 1 →
       Budget_PR fig !! i = Some (Q2Qc 73.9)).
Proof.
  intros Hfig Hr. rewrite (analyze_Budget_PR _ _ _ _ _ _ Hfig Hr).
  split; [|split]; intros ->.
  - split; [|Qc_compute].
    rewrite (budget_of_period _ 2019); [done | lia | by vm_compute].
  - split; [|Qc_compute].
    rewrite (budget_of_period _ 2020); [done | lia | by vm_compute].
  - rewrite (budget_of_period _ 2019); [|lia|by vm_compute].
    f_equal.
Qed.

Lemma budget_2020_01_01_and_2019_07_01_witness :
  ∃ fig, analyze [row_on 2019 7 1; row_on 2020 1 1; row_on 2020 7 1]
                 (to_datetime 2019 7 1) (to_datetime 2022 3 24) = Return fig
         ∧ Budget_PR fig !! 0%nat = Some (Q2Qc 73.9)
         ∧ Budget_PR fig !! 1%nat = Some (Q2Qc 73.9 * Q2Qc 0.992 ^ 0)%Qc
         ∧ Budget_PR fig !! 2%nat = Some (Q2Qc 73.9 * Q2Qc 0.992 ^ 1)%Qc.
Proof.
  eexists. split; [reflexivity|]. split; [|split].
  - refine (proj2 (proj2 (budget_2020_01_01_and_2019_07_01
             [row_on 2019 7 1; row_on 2020 1 1; row_on 2020 7 1]
             (to_datetime 2019 7 1) (to_datetime 2022 3 24) _ 0
             (row_on 2019 7 1) _ _)) _); reflexivity.
  - refine (proj1 (proj1 (budget_2020_01_01_and_2019_07_01
             [row_on 2019 7 1; row_on 2020 1 1; row_on 2020 7 1]
             (to_datetime 2019 7 1) (to_datetime 2022 3 24) _ 1
             (row_on 2020 1 1) _ _) _)); reflexivity.
  - refine (proj1 (proj1 (proj2 (budget_2020_01_01_and_2019_07_01
             [row_on 2019 7 1; row_on 2020 1 1; row_on 2020 7 1]
             (to_datetime 2019 7 1) (to_datetime 2022 3 24) _ 2
             (row_on 2020 7 1) _ _)) _)); reflexivity.
Defined.

(** C3, as stated, fails: the budget of the row dated 2020-01-01 is 73.9.
    It is not 73.9 * 0.992 ^ 1, and it is at 0.5928 of the 73.3072 of the
    claim (which 73.9 * 0.992 ^ 1 = 73.3088 is not either). *)
Lemma budget_2020_01_01_is_73_9 :
  ∃ fig, analyze [row_on 2020 1 1]
                 (to_datetime 2019 7 1) (to_datetime 2022 3 24) = Return fig
         ∧ Budget_PR fig = [Q2Qc 73.9]
         ∧ Q2Qc 73.9 ≠ (Q2Qc 73.9 * Q2Qc 0.992 ^ 1)%Qc
         ∧ (Q2Qc 73.9 - Q2Qc 73.3072)%Qc = Q2Qc 0.5928
         ∧ (Q2Qc 73.9 * Q2Qc 0.992 ^ 1 - Q2Qc 73.3072)%Qc = Q2Qc 0.0016.
Proof.
  eexists. split; [reflexivity|]. split; [|split; [|split]].
  - reflexivity.
  - intros H%(f_equal this). vm_compute in H. discriminate.
  - Qc_compute.
  - Qc_compute.
Qed.

(** C4, as the code has it.  A row of the analysis whose date is in none
    of the four periods keeps the value the column was created with, 73.9:
    so do the rows dated before 2019-07-01 and the rows dated after
    2023-06-30, the last day of the last period. *)
Theorem budget_outside_periods df start_date end_date fig i r :
  analyze df start_date end_date = Return fig →
  frame fig !! i = Some r →
  ((∀ Y, 2019 ≤ Y ≤ 2022 →
         ¬ (to_datetime Y 7 1 ≤ Date r ≤ to_datetime (Y + 1) 6 30)) →
   Budget_PR fig !! i = Some (Q2Qc 73.9))
  ∧ (to_datetime 2023 6 30 < Date r → Budget_PR fig !! i = Some (Q2Qc 73.9))
  ∧ (Date r < to_datetime 2019 7 1 → Budget_PR fig !! i = Some (Q2Qc 73.9)).
Proof.
  intros Hfig Hr. rewrite (analyze_Budget_PR _ _ _ _ _ _ Hfig Hr).
  split; [|split]; intros H; f_equal; apply budget_of_outside; [|by right|by left].
  pose proof (H 2019) as H19. pose proof (H 2020) as H20.
  pose proof (H 2021) as H21. pose proof (H 2022) as H22.
  eval_dates. lia.
Qed.

Lemma budget_outside_periods_witness :
  ∃ fig, analyze [row_on 2019 6 30; row_on 2023 7 1]
                 (to_datetime 2019 1 1) (to_datetime 2023 12 31) = Return fig
         ∧ Budget_PR fig !! 0%nat = Some (Q2Qc 73.9)
         ∧ Budget_PR fig !! 1%nat = Some (Q2Qc 73.9).
Proof.
  eexists. split; [reflexivity|]. split.
  - refine (proj2 (proj2 (budget_outside_periods
             [row_on 2019 6 30; row_on 2023 7 1]
             (to_datetime 2019 1 1) (to_datetime 2023 12 31) _ 0
             (row_on 2019 6 30) _ _)) _); reflexivity.
  - refine (proj1 (budget_outside_periods
             [row_on 2019 6 30; row_on 2023 7 1]
             (to_datetime 2019 1 1) (to_datetime 2023 12 31) _ 1
             (row_on 2023 7 1) _ _) _); [reflexivity | reflexivity |].
    intros Y HY.
    assert (Y = 2019 ∨ Y = 2020 ∨ Y = 2021 ∨ Y = 2022) as [->|[->|[->| ->]]]
      by lia; vm_compute; intros [H1 H2]; by apply H2.
Defined.

(** C4, as stated, fails: of two consecutive rows dated 2023-06-30 and
    2023-07-01, the first has the value of the last period,
    73.9 * 0.992 ^ 3, and the second, past the last period, has 73.9: it
    retains neither the value of the row before it nor that of the last
    period. *)
Lemma budget_after_last_period_is_default :
  ∃ fig, analyze [row_on 2023 6 30; row_on 2023 7 1]
                 (to_datetime 2019 7 1) (to_datetime 2023 12 31) = Return fig
         ∧ Budget_PR fig = [(Q2Qc 73.9 * Q2Qc 0.992 ^ 3)%Qc; Q2Qc 73.9]
         ∧ Q2Qc 73.9 ≠ (Q2Qc 73.9 * Q2Qc 0.992 ^ 3)%Qc.
Proof.
  eexists. split; [reflexivity|]. split.
  - reflexivity.
  - intros H%(f_equal this). vm_compute in H. discriminate.
Qed.

(** ** The rolling mean *)

Section rolling.
Local Open Scope nat_scope.

Lemma omap_lookup_seq {A} (l : list A) k : ∀ a,
  a + k ≤ length l → omap (λ j, l !! j) (seq a k) = take k (drop a l).
Proof.
  induction k as [|k IH]; intros a Hlen; [by rewrite take_0|].
  destruct (lookup_lt_is_Some_2 l a) as [x Hx]; [lia|].
  rewrite (drop_S _ _ _ Hx). cbn. rewrite Hx. cbn.
  f_equal. apply IH. lia.
Qed.

Lemma window_rows_take_drop (df : DataFrame) i :
  i < length df →
  window_rows df i = drop (S i - 30) (take (S i) df).
Proof.
  intros Hi. unfold window_rows, window_indices.
  rewrite omap_lookup_seq by lia. rewrite take_drop_commute.
  replace (S i - 30 `min` S i) with (S i - 30) by lia.
  by replace (S i - 30 + 30 `min` S i) with (S i) by lia.
Qed.

Lemma window_rows_length (df : DataFrame) i :
  i < length df → length (window_rows df i) = 30 `min` S i.
Proof.
  intros Hi. rewrite window_rows_take_drop by done.
  rewrite length_drop, length_take. lia.
Qed.

Lemma window_rows_last (df : DataFrame) i r :
  df !! i = Some r → last (window_rows df i) = Some r.
Proof.
  intros Hr. pose proof (lookup_lt_Some _ _ _ Hr) as Hi.
  rewrite last_lookup, window_rows_length by done.
  rewrite window_rows_take_drop, lookup_drop, lookup_take_lt by (done || lia).
  rewrite <- Hr. f_equal. lia.
Qed.

Lemma trailing_window_rows (df : DataFrame) i :
  i < length df → trailing 30 i (PR <$> df) = PR <$> window_rows df i.
Proof.
  intros Hi. rewrite window_rows_take_drop by done. unfold trailing.
  by rewrite fmap_drop, fmap_take.
Qed.

Lemma mean_obs_1 xs : mean_obs 1 xs = mean_of_present xs.
Proof. unfold mean_obs, mean_of_present. by destruct (observations xs). Qed.

Lemma Series_mean_present xs : Series_mean xs = mean_of_present xs.
Proof.
  unfold Series_mean, mean_obs, mean_of_present. by destruct (observations xs).
Qed.

Lemma observations_Some vals : observations (Some <$> vals) = vals.
Proof.
  unfold observations. induction vals as [|v vals IH]; [done|].
  cbn. by rewrite IH.
Qed.

Lemma observations_nil xs : observations xs = [] ↔ Forall (λ x, x = NaN) xs.
Proof.
  unfold observations. induction xs as [|[x|] xs IH]; cbn.
  - split; [constructor | done].
  - split; [done | by inversion 1].
  - rewrite IH. split; [by constructor | by inversion 1].
Qed.

(** A column without missing value is the column of its values. *)
Lemma present_values (xs : list num) :
  Forall (λ x, x ≠ NaN) xs → ∃ vals, xs = Some <$> vals.
Proof.
  induction 1 as [|[x|] xs Hx _ [vals ->]]; [by exists []| |done].
  by exists (x :: vals).
Qed.

Lemma rolling_mean_lookup (df : DataFrame) i r :
  df !! i = Some r →
  rolling_mean 30 1 (PR <$> df) !! i
  = Some (mean_of_present (PR <$> window_rows df i)).
Proof.
  intros Hr. pose proof (lookup_lt_Some _ _ _ Hr) as Hi.
  unfold rolling_mean. rewrite list_lookup_imap, list_lookup_fmap, Hr.
  by rewrite <- trailing_window_rows, <- mean_obs_1.
Qed.

End rolling.

(** Equality of closed lists of values, one value at a time. *)
Ltac Qc_list := repeat (f_equal; try Qc_compute).

(** C5, as the code has it.  For every row of the filtered table, the
    window is made of the trailing min(30, rows seen so far) rows and ends
    with the row itself; the rolling mean is the arithmetic mean of the PR
    values of the window that are not missing; it is NaN exactly when every
    PR of the window is missing; when none is missing it is the arithmetic
    mean of the PR of all the rows of the window, and not NaN.  In-range PR
    values 10, 20, 30 give the rolling means 10, 15, 20. *)
Theorem rolling_mean_of_present_PR :
  (∀ df start_date end_date fig i r,
     analyze df start_date end_date = Return fig →
     frame fig !! i = Some r →
     length (window_rows (frame fig) i) = (30 `min` S i)%nat
     ∧ last (window_rows (frame fig) i) = Some r
     ∧ PR_MA30 fig !! i
       = Some (mean_of_present (PR <$> window_rows (frame fig) i))
     ∧ (PR_MA30 fig !! i = Some NaN ↔
        ∀ r', r' ∈ window_rows (frame fig) i → PR r' = NaN)
     ∧ ((∀ r', r' ∈ window_rows (frame fig) i → PR r' ≠ NaN) →
        ∃ vals, PR <$> window_rows (frame fig) i = Some <$> vals
                ∧ length vals = (30 `min` S i)%nat
                ∧ PR_MA30 fig !! i = Some (Some (arithmetic_mean vals))))
  ∧ (∃ fig, analyze [pr_row 1 (Num 10); pr_row 2 (Num 20); pr_row 3 (Num 30)]
                    (to_datetime 2021 1 1) (to_datetime 2021 1 31) = Return fig
            ∧ PR_MA30 fig = [Num 10; Num 15; Num 20]).
Proof.
  split.
  - intros df sd ed fig i r Hfig Hr.
    pose proof (lookup_lt_Some _ _ _ Hr) as Hi.
    destruct (analyze_columns _ _ _ _ Hfig) as (_ & _ & HMA & _).
    rewrite HMA, (rolling_mean_lookup _ _ _ Hr).
    split; [by apply window_rows_length|].
    split; [by apply window_rows_last|]. split; [done|]. split.
    + unfold mean_of_present.
      destruct (observations _) as [|v obs] eqn:Hobs.
      * split; [intros _|done]. apply observations_nil in Hobs.
        rewrite Forall_fmap, Forall_forall in Hobs. exact Hobs.
      * split; [done|]. intros Hall.
        assert (observations (PR <$> window_rows (frame fig) i) = []) as Hnil
          by (apply observations_nil; rewrite Forall_fmap, Forall_forall;
              exact Hall).
        by rewrite Hnil in Hobs.
    + intros Hall.
      destruct (present_values (PR <$> window_rows (frame fig) i))
        as [vals Hvals].
      { rewrite Forall_fmap, Forall_forall. exact Hall. }
      exists vals. split; [done|].
      assert (length vals = (30 `min` S i)%nat) as Hlen.
      { rewrite <- (window_rows_length (frame fig) i Hi).
        rewrite <- (length_fmap PR), Hvals. by rewrite length_fmap. }
      split; [done|]. unfold mean_of_present.
      rewrite Hvals, observations_Some.
      destruct vals; [simpl in Hlen; lia | done].
  - eexists. split; [reflexivity|]. vm_compute. Qc_list.
Qed.

Lemma rolling_mean_of_present_PR_witness :
  ∃ fig, analyze [pr_row 1 (Num 10); pr_row 2 NaN; pr_row 3 (Num 30)]
                 (to_datetime 2021 1 1) (to_datetime 2021 1 31) = Return fig
         ∧ PR_MA30 fig !! 2%nat
           = Some (mean_of_present (PR <$> window_rows (frame fig) 2%nat)).
Proof.
  eexists. split; [reflexivity|].
  refine (proj1 (proj2 (proj2 (proj1 rolling_mean_of_present_PR
      [pr_row 1 (Num 10); pr_row 2 NaN; pr_row 3 (Num 30)]
      (to_datetime 2021 1 1) (to_datetime 2021 1 31) _ 2%nat (pr_row 3 (Num 30))
      _ _)))); reflexivity.
Defined.

(** C5, as stated, fails where a PR value is missing: a range whose only
    row has no PR has a rolling mean that is NaN; and with PR values 10,
    missing, 30 the last rolling mean is 20, the mean of the two values
    present among the three trailing rows. *)
Lemma rolling_mean_of_missing_PR_is_NaN :
  (∃ fig, analyze [pr_row 1 NaN]
                  (to_datetime 2021 1 1) (to_datetime 2021 1 31) = Return fig
          ∧ PR_MA30 fig = [NaN])
  ∧ (∃ fig, analyze [pr_row 1 (Num 10); pr_row 2 NaN; pr_row 3 (Num 30)]
                    (to_datetime 2021 1 1) (to_datetime 2021 1 31) = Return fig
            ∧ PR_MA30 fig = [Num 10; Num 10; Num 20]).
Proof.
  split; eexists; (split; [reflexivity|]).
  - reflexivity.
  - vm_compute. Qc_list.
Qed.

(** ** Recent-window summaries *)

Lemma foldl_max_spec (l : list Z) : ∀ x,
  foldl Z.max x l ∈ x :: l ∧ Forall (λ y, y ≤ foldl Z.max x l) (x :: l).
Proof.
  induction l as [|y l IH]; intros x; simpl.
  - split; [by left | by constructor].
  - destruct (IH (Z.max x y)) as [Hin Hall].
    apply Forall_cons in Hall as [Hxy Hall]. split.
    + apply elem_of_cons in Hin as [Hin|Hin]; [|by do 2 right].
      rewrite Hin. destruct (Z.max_spec x y) as [[_ ->]|[_ ->]];
        [right; by left | by left].
    + constructor; [lia|]. constructor; [lia | done].
Qed.

Lemma analyze_text df start_date end_date fig :
  analyze df start_date end_date = Return fig →
  ∃ last_date,
    last_date ∈ Date <$> frame fig
    ∧ (∀ r, r ∈ frame fig → Date r ≤ last_date)
    ∧ text fig = (λ period, (period, avg_pr (frame fig) last_date period))
                   <$> periods.
Proof.
  unfold analyze. destruct (in_range start_date end_date df) as [|r0 rest];
    [done|].
  intros [= <-]. cbn [frame text].
  exists (foldl Z.max (Date r0) (Date <$> rest)).
  destruct (foldl_max_spec (Date <$> rest) (Date r0)) as [Hin Hall].
  split; [done|]. split; [|done].
  intros r Hr. rewrite Forall_forall in Hall. apply Hall.
  by apply (list_elem_of_fmap_2 Date (r0 :: rest)).
Qed.

(** C7.  The summary of a period is computed from the rows dated strictly
    after the last date minus the period: it is 0 when there is no such
    row, and otherwise the mean of their PR (of those that are not
    missing; the arithmetic mean of all of them when none is).  The text
    of a figure holds that summary for 7, 30 and 60 days, the last date
    being the greatest date of the filtered table. *)
Theorem recent_window_summaries :
  (∀ df last_date period,
     (∀ r, r ∈ recent_data df last_date period ↔
           r ∈ df ∧ last_date - period < Date r)
     ∧ (recent_data df last_date period = [] →
        avg_pr df last_date period = Num 0)
     ∧ (recent_data df last_date period ≠ [] →
        avg_pr df last_date period
        = mean_of_present (PR <$> recent_data df last_date period))
     ∧ (∀ vals, vals ≠ [] →
          PR <$> recent_data df last_date period = Some <$> vals →
          avg_pr df last_date period = Some (arithmetic_mean vals)))
  ∧ (∀ df start_date end_date fig,
       analyze df start_date end_date = Return fig →
       ∃ last_date,
         last_date ∈ Date <$> frame fig
         ∧ (∀ r, r ∈ frame fig → Date r ≤ last_date)
         ∧ text fig = [(7, avg_pr (frame fig) last_date 7);
                       (30, avg_pr (frame fig) last_date 30);
                       (60, avg_pr (frame fig) last_date 60)])
  ∧ avg_pr [pr_row 1 (Num 70)] (to_datetime 2021 3 1) 7 = Num 0
  ∧ avg_pr [pr_row 1 (Num 60); pr_row 20 (Num 70); pr_row 31 (Num 90)]
           (to_datetime 2021 1 31) 30 = Num 80.
Proof.
  split; [|split; [|split]].
  - intros df last_date period. split; [|split; [|split]].
    + intros r. unfold recent_data, timedelta.
      rewrite list_elem_of_filter. tauto.
    + intros He. unfold avg_pr. by rewrite He.
    + intros Hne. unfold avg_pr.
      destruct (recent_data df last_date period) as [|r rs]; [done|].
      apply Series_mean_present.
    + intros vals Hne Hvals. unfold avg_pr.
      destruct (recent_data df last_date period) as [|r rs].
      { destruct vals; [done | discriminate]. }
      rewrite Series_mean_present, Hvals. unfold mean_of_present.
      rewrite observations_Some. by destruct vals.
  - intros df sd ed fig Hfig.
    destruct (analyze_text _ _ _ _ Hfig) as (last_date & Hin & Hmax & Htext).
    by exists last_date.
  - reflexivity.
  - vm_compute. Qc_list.
Qed.

(** X2.  In a figure the rows dated after the last date minus 7, 30 or 60
    days always include the row of the last date: no summary of a figure
    takes the value 0 of the empty window, each is the mean of the PR of
    its window. *)
Theorem figure_windows_nonempty df start_date end_date fig :
  analyze df start_date end_date = Return fig →
  ∃ last_date,
    text fig = (λ period, (period, avg_pr (frame fig) last_date period))
                 <$> periods
    ∧ ∀ period, period ∈ periods →
        recent_data (frame fig) last_date period ≠ []
        ∧ avg_pr (frame fig) last_date period
          = mean_of_present (PR <$> recent_data (frame fig) last_date period).
Proof.
  intros (last_date & (r & -> & Hr)%list_elem_of_fmap & _ & Htext)%analyze_text.
  exists (Date r). split; [done|]. intros period Hp.
  assert (0 < period) as Hpos.
  { unfold periods in Hp. set_unfold. lia. }
  assert (r ∈ recent_data (frame fig) (Date r) period) as Hin.
  { unfold recent_data, timedelta. apply list_elem_of_filter. split; [lia|done]. }
  unfold avg_pr.
  destruct (recent_data (frame fig) (Date r) period) as [|r' rs];
    [by apply elem_of_nil in Hin|].
  split; [done | apply Series_mean_present].
Qed.

Lemma figure_windows_nonempty_witness :
  ∃ fig last_date,
    analyze table_2021 (to_datetime 2021 1 1) (to_datetime 2021 12 31)
      = Return fig
    ∧ recent_data (frame fig) last_date 7 ≠ [].
Proof.
  destruct (figure_windows_nonempty table_2021
              (to_datetime 2021 1 1) (to_datetime 2021 12 31) _ eq_refl)
    as (last_date & _ & Hw).
  eexists _, last_date. split; [reflexivity|].
  apply (Hw 7). unfold periods. by left.
Defined.

(** ** The empty range and what a run writes *)

Lemma in_range_nil start_date end_date (df : DataFrame) :
  in_range start_date end_date df = [] ↔
  ∀ r, r ∈ df → ¬ (start_date ≤ Date r ≤ end_date).
Proof.
  unfold in_range. split.
  - intros He r Hr Hd.
    assert (r ∈ filter (λ r, start_date ≤ Date r ∧ Date r ≤ end_date) df)
      as Hin by (by apply list_elem_of_filter).
    rewrite He in Hin. by apply elem_of_nil in Hin.
  - intros Hall.
    destruct (filter _ df) as [|r rs] eqn:Hf; [done|].
    assert (r ∈ filter (λ r, start_date ≤ Date r ∧ Date r ≤ end_date) df)
      as [Hd Hr]%list_elem_of_filter by (rewrite Hf; by left).
    by destruct (Hall r Hr).
Qed.

(** The two ways [plot_pr_evolution] ends. *)
Lemma plot_pr_evolution_empty df start_date end_date output_file fs :
  in_range start_date end_date df = [] →
  plot_pr_evolution df start_date end_date output_file fs
  = (Raise (ValueError empty_range_msg), fs).
Proof.
  intros He. unfold plot_pr_evolution, io_bind, io_lift, analyze.
  by rewrite He.
Qed.

Lemma plot_pr_evolution_some df start_date end_date output_file fs :
  in_range start_date end_date df ≠ [] →
  ∃ fig, analyze df start_date end_date = Return fig
         ∧ plot_pr_evolution df start_date end_date output_file fs
           = (Return tt, <[output_file := PngFile fig]> fs).
Proof.
  intros Hne. unfold plot_pr_evolution, io_bind, io_lift, write_file, analyze.
  destruct (in_range start_date end_date df) as [|r0 rest]; [done|].
  by eexists.
Qed.

Lemma plot_pr_evolution_raise df start_date end_date output_file fs e fs' :
  plot_pr_evolution df start_date end_date output_file fs = (Raise e, fs') →
  e = ValueError empty_range_msg ∧ fs' = fs.
Proof.
  intros Hrun. destruct (in_range start_date end_date df) as [|r0 rest] eqn:Hr.
  - rewrite plot_pr_evolution_empty in Hrun by done. by injection Hrun as <- <-.
  - destruct (plot_pr_evolution_some df start_date end_date output_file fs)
      as (fig & _ & Hok); [by rewrite Hr|]. by rewrite Hok in Hrun.
Qed.

(** C6.  [plot_pr_evolution] raises the error of the empty range exactly
    when no row of the table is dated within [start_date, end_date], both
    ends included; it raises nothing else; when it raises, the files are
    what they were, so no chart is written; when a row is in the range a
    chart is written; and [main] hands the error on to its caller.  A
    table with rows in 2021 only, asked for the year 2022, raises. *)
Theorem empty_range_error :
  (∀ df start_date end_date output_file fs,
     (plot_pr_evolution df start_date end_date output_file fs).1
       = Raise (ValueError empty_range_msg)
     ↔ ∀ r, r ∈ df → ¬ (start_date ≤ Date r ≤ end_date))
  ∧ (∀ df start_date end_date output_file fs e fs',
       plot_pr_evolution df start_date end_date output_file fs = (Raise e, fs') →
       e = ValueError empty_range_msg ∧ fs' = fs)
  ∧ (∀ df start_date end_date output_file fs r,
       r ∈ df → start_date ≤ Date r ≤ end_date →
       ∃ fig, plot_pr_evolution df start_date end_date output_file fs
              = (Return tt, <[output_file := PngFile fig]> fs))
  ∧ (∀ ghi_dict pr_dict args fs df fs1,
       process_data ghi_dict pr_dict (output_csv args) fs = (Return df, fs1) →
       (∀ r, r ∈ df → ¬ (start_date args ≤ Date r ≤ end_date args)) →
       main ghi_dict pr_dict args fs = (Raise (ValueError empty_range_msg), fs1))
  ∧ (∀ output_file fs,
       plot_pr_evolution table_2021 (to_datetime 2022 1 1)
         (to_datetime 2022 12 31) output_file fs
       = (Raise (ValueError empty_range_msg), fs)).
Proof.
  split; [|split; [|split; [|split]]].
  - intros df sd ed out fs. rewrite <- in_range_nil.
    destruct (in_range sd ed df) as [|r0 rest] eqn:Hr.
    + by rewrite plot_pr_evolution_empty.
    + destruct (plot_pr_evolution_some df sd ed out fs) as (fig & _ & ->);
        [by rewrite Hr|]. done.
  - intros df sd ed out fs e fs'. apply plot_pr_evolution_raise.
  - intros df sd ed out fs r Hr Hd.
    destruct (plot_pr_evolution_some df sd ed out fs) as (fig & _ & Hok).
    + intros He. by apply (proj1 (in_range_nil sd ed df) He r).
    + by exists fig.
  - intros g p args fs df fs1 Hrun Hall. unfold main, io_bind.
    rewrite Hrun. apply plot_pr_evolution_empty. by apply in_range_nil.
  - intros out fs. by apply plot_pr_evolution_empty.
Qed.

(** C9, as the code has it.  When a run ends on the error of the empty
    range, [process_data] had returned the merged table and written it to
    the CSV path; that file is the only change to the files: no chart is
    written.  A run that ends on [KeyError], for want of a common date,
    writes nothing. *)
Theorem aborted_run_files ghi_dict pr_dict args fs e fs' :
  main ghi_dict pr_dict args fs = (Raise e, fs') →
  (∀ msg, e = ValueError msg →
     ∃ df, process_data ghi_dict pr_dict (output_csv args) fs
             = (Return df, <[output_csv args := CsvFile df]> fs)
           ∧ fs' = <[output_csv args := CsvFile df]> fs
           ∧ fs' !! output_csv args = Some (CsvFile df)
           ∧ ∀ path, path ≠ output_csv args → fs' !! path = fs !! path)
  ∧ (∀ key, e = KeyError key → fs' = fs).
Proof.
  unfold main, io_bind. intros Hrun.
  destruct (common_dates ghi_dict pr_dict) as [|d0 ds] eqn:Hc.
  - rewrite process_data_disjoint in Hrun by done.
    injection Hrun as <- <-. split; [done|]. done.
  - destruct (process_data_common ghi_dict pr_dict (output_csv args) fs)
      as (df & Hdf & _); [by rewrite Hc|].
    rewrite Hdf in Hrun.
    destruct (plot_pr_evolution_raise _ _ _ _ _ _ _ Hrun) as [-> ->].
    split; [|done]. intros msg _. exists df.
    split; [done|]. split; [done|]. split; [by rewrite lookup_insert_eq|].
    intros path Hp. by rewrite lookup_insert_ne.
Qed.

Lemma aborted_run_files_witness :
  ∃ df, (main ghi_2021 pr_2021 args_2022 ∅).2
        = <[output_csv args_2022 := CsvFile df]> ∅.
Proof.
  destruct (proj1 (aborted_run_files ghi_2021 pr_2021 args_2022 ∅
                     (ValueError empty_range_msg)
                     (main ghi_2021 pr_2021 args_2022 ∅).2
                     ltac:(vm_compute; reflexivity))
                  empty_range_msg eq_refl) as (df & _ & Hfs & _).
  by exists df.
Defined.

(** C9, as stated, fails: the run over the 2021 data asked for the year
    2022 ends on the error of the empty range, and the merged table of the
    three common days is in the CSV file all the same; there is no
    chart. *)
Lemma aborted_run_leaves_merged_table :
  (main ghi_2021 pr_2021 args_2022 ∅).1 = Raise (ValueError empty_range_msg)
  ∧ (main ghi_2021 pr_2021 args_2022 ∅).2 !! "output/combined_data.csv"
    = Some (CsvFile [mkRow (to_datetime 2021 1 3) 3%float (Num 70);
                     mkRow (to_datetime 2021 1 4) 3%float (Num 70);
                     mkRow (to_datetime 2021 1 5) 3%float (Num 70)])
  ∧ (main ghi_2021 pr_2021 args_2022 ∅).2 !! "output/pr_evolution.png" = None.
Proof. split; [|split]; vm_compute; reflexivity. Qed.



(** ** The values of the reconciled table, and the columns of a figure *)

(** X3.  The table returned by [process_data] has one row for each common
    date and no other: a row of date [d], GHI [g] and PR [p] is in the
    table exactly when [ghi_dict[d]] is [g] and [pr_dict[d]] is [p]; the
    table has as many rows as the two dictionaries have dates in common,
    and it is what the CSV file holds afterwards. *)
Theorem reconciled_rows_values ghi_dict pr_dict output_file fs df fs' :
  process_data ghi_dict pr_dict output_file fs = (Return df, fs') →
  (∀ d g p, mkRow d g p ∈ df ↔
            ghi_dict !! d = Some g ∧ pr_dict !! d = Some p)
  ∧ length df = size (dom ghi_dict ∩ dom pr_dict)
  ∧ fs' !! output_file = Some (CsvFile df).
Proof.
  intros Hrun.
  destruct (common_dates ghi_dict pr_dict) as [|d0 ds] eqn:Hc;
    [by rewrite process_data_disjoint in Hrun|].
  destruct (process_data_common ghi_dict pr_dict output_file fs)
    as (df' & Hrun' & Hdates & Hvals); [by rewrite Hc|].
  rewrite Hrun' in Hrun. injection Hrun as -> <-.
  rewrite Forall_forall in Hvals. split; [|split].
  - intros d g p. split.
    + intros Hin. apply (Hvals _ Hin).
    + intros [Hg Hp].
      assert (d ∈ Date <$> df) as (r & -> & Hr)%list_elem_of_fmap.
      { rewrite Hdates. apply elem_of_common_dates. by rewrite Hg, Hp. }
      destruct (Hvals _ Hr) as [Hg' Hp']. destruct r as [d' g' p'].
      simpl in *. by simplify_eq.
  - rewrite <- (length_fmap Date), Hdates. unfold common_dates.
    by rewrite merge_sort_Permutation.
  - by rewrite lookup_insert_eq.
Qed.

Lemma reconciled_rows_values_witness :
  ∃ df, (process_data ghi_2021 pr_2021 "out.csv" ∅).1 = Return df
        ∧ length df = size (dom ghi_2021 ∩ dom pr_2021).
Proof.
  eexists. split; [reflexivity|].
  refine (proj1 (proj2 (reconciled_rows_values ghi_2021 pr_2021 "out.csv" ∅ _
                          (process_data ghi_2021 pr_2021 "out.csv" ∅).2 _))).
  vm_compute. reflexivity.
Defined.

Lemma budget_step_length dates col year :
  length col = length dates → length (budget_step dates col year) = length dates.
Proof.
  intros Hl. unfold budget_step, loc_assign.
  rewrite length_zip_with, length_fmap. lia.
Qed.

Lemma budget_column_length dates : length (budget_column dates) = length dates.
Proof.
  unfold budget_column.
  generalize (range 2019 2023). intros years.
  assert (length (replicate (length dates) budget_default) = length dates)
    as Hl by apply length_replicate.
  revert Hl. generalize (replicate (length dates) budget_default).
  induction years as [|y years IH]; intros col Hl; [done|].
  simpl. apply IH. by apply budget_step_length.
Qed.

(** X4.  A figure keeps the rows of the table that are in the range, in
    the order of the table, and gives each of them one rolling mean, one
    budget value and one colour: the three added columns have the length
    of the filtered table; the text has one line per period. *)
Theorem figure_columns df start_date end_date fig :
  analyze df start_date end_date = Return fig →
  frame fig `sublist_of` df
  ∧ (∀ r, r ∈ frame fig ↔ r ∈ df ∧ start_date ≤ Date r ≤ end_date)
  ∧ length (PR_MA30 fig) = length (frame fig)
  ∧ length (Budget_PR fig) = length (frame fig)
  ∧ length (Color fig) = length (frame fig)
  ∧ (text fig).*1 = [7; 30; 60].
Proof.
  intros Hfig.
  destruct (analyze_columns _ _ _ _ Hfig) as (Hframe & _ & HMA & HB & HC).
  destruct (analyze_text _ _ _ _ Hfig) as (last_date & _ & _ & Htext).
  split; [rewrite Hframe; apply sublist_filter|].
  split.
  { intros r. rewrite Hframe. unfold in_range.
    rewrite list_elem_of_filter. tauto. }
  rewrite HMA, HB, HC, Htext. unfold rolling_mean.
  by rewrite length_imap, budget_column_length, !length_fmap.
Qed.

Lemma figure_columns_witness :
  ∃ fig, analyze table_2021 (to_datetime 2021 1 4) (to_datetime 2021 1 5)
         = Return fig
         ∧ length (Budget_PR fig) = length (frame fig).
Proof.
  eexists. split; [reflexivity|].
  refine (proj1 (proj2 (proj2 (proj2 (figure_columns table_2021
    (to_datetime 2021 1 4) (to_datetime 2021 1 5) _ _))))). reflexivity.
Defined.

(** ** A run that returns *)





(** ** More on the rolling mean *)

Lemma arithmetic_mean_singleton v : arithmetic_mean [v] = v.
Proof.
  unfold arithmetic_mean, Qcsum. simpl.
  change (Qc_of_nat 1) with 1%Qc. field. done.
Qed.

(** X6.  The rolling mean of the first row of the range is the PR of that
    row itself, missing when that PR is missing: the window of the first
    row holds that row only. *)
Theorem rolling_mean_first_row df start_date end_date fig r :
  analyze df start_date end_date = Return fig →
  frame fig !! 0%nat = Some r →
  window_rows (frame fig) 0 = [r] ∧ PR_MA30 fig !! 0%nat = Some (PR r).
Proof.
  intros Hfig Hr.
  destruct (analyze_columns _ _ _ _ Hfig) as (_ & _ & HMA & _).
  assert (window_rows (frame fig) 0 = [r]) as Hw
    by (unfold window_rows, window_indices; simpl; by rewrite Hr).
  split; [done|]. rewrite HMA, (rolling_mean_lookup _ _ _ Hr), Hw.
  unfold mean_of_present, observations. simpl.
  destruct (PR r) as [v|]; simpl; [|done].
  by rewrite arithmetic_mean_singleton.
Qed.

Lemma rolling_mean_first_row_witness :
  ∃ fig, analyze table_2021 (to_datetime 2021 1 1) (to_datetime 2021 1 31)
         = Return fig
         ∧ PR_MA30 fig !! 0%nat = Some (Num 70).
Proof.
  eexists. split; [reflexivity|].
  refine (proj2 (rolling_mean_first_row table_2021
    (to_datetime 2021 1 1) (to_datetime 2021 1 31) _ (pr_row 3 (Num 70)) _ _));
    reflexivity.
Defined.









(** ** The shape of the budget curve *)

Lemma budget_of_values d :
  budget_of d ∈ [budget_value 2019; budget_value 2020; budget_value 2021;
                 budget_value 2022].
Proof.
  replace budget_default with (budget_value 2019) by reflexivity.
  budget_cases; set_solver.
Qed.

Lemma budget_of_decline d1 d2 :
  to_datetime 2019 7 1 ≤ d1 → d1 ≤ d2 → d2 ≤ to_datetime 2023 6 30 →
  (budget_of d2 ≤ budget_of d1)%Qc.
Proof. intros H1 H12 H2. eval_dates. budget_cases; by vm_compute. Qed.

(** X8.  The budget column only ever holds the four values
    73.9 * 0.992 ^ k for k from 0 to 3, that is 73.9, 73.3088, 72.7223296
    and 72.1405509632; and from 2019-07-01 to 2023-06-30 it never goes up:
    of two rows in that span, the later one has a budget at most that of
    the earlier one. *)
Theorem budget_curve_declines df start_date end_date fig :
  analyze df start_date end_date = Return fig →
  (∀ i b, Budget_PR fig !! i = Some b →
     b ∈ [Q2Qc 73.9; Q2Qc 73.3088; Q2Qc 72.7223296; Q2Qc 72.1405509632])
  ∧ (∀ i j ri rj bi bj,
       frame fig !! i = Some ri → frame fig !! j = Some rj →
       Budget_PR fig !! i = Some bi → Budget_PR fig !! j = Some bj →
       to_datetime 2019 7 1 ≤ Date ri → Date ri ≤ Date rj →
       Date rj ≤ to_datetime 2023 6 30 →
       (bj ≤ bi)%Qc).
Proof.
  intros Hfig. split.
  - intros i b Hb.
    destruct (lookup_lt_is_Some_2 (frame fig) i) as [r Hr].
    { destruct (analyze_columns _ _ _ _ Hfig) as (_ & _ & _ & HB & _).
      rewrite <- (length_fmap Date), <- budget_column_length, <- HB.
      by eapply lookup_lt_Some. }
    rewrite (analyze_Budget_PR _ _ _ _ _ _ Hfig Hr) in Hb. injection Hb as <-.
    replace (Q2Qc 73.9) with (budget_value 2019) by Qc_compute.
    replace (Q2Qc 73.3088) with (budget_value 2020) by Qc_compute.
    replace (Q2Qc 72.7223296) with (budget_value 2021) by Qc_compute.
    replace (Q2Qc 72.1405509632) with (budget_value 2022) by Qc_compute.
    apply budget_of_values.
  - intros i j ri rj bi bj Hri Hrj Hbi Hbj H1 H12 H2.
    rewrite (analyze_Budget_PR _ _ _ _ _ _ Hfig Hri) in Hbi.
    rewrite (analyze_Budget_PR _ _ _ _ _ _ Hfig Hrj) in Hbj.
    injection Hbi as <-. injection Hbj as <-. by apply budget_of_decline.
Qed.

Lemma budget_curve_declines_witness :
  ∃ fig, analyze [row_on 2019 7 1; row_on 2021 1 1; row_on 2023 6 30]
                 (to_datetime 2019 1 1) (to_datetime 2023 12 31) = Return fig
         ∧ ∀ i b, Budget_PR fig !! i = Some b →
             b ∈ [Q2Qc 73.9; Q2Qc 73.3088; Q2Qc 72.7223296; Q2Qc 72.1405509632].
Proof.
  eexists. split; [reflexivity|].
  refine (proj1 (budget_curve_declines
    [row_on 2019 7 1; row_on 2021 1 1; row_on 2023 6 30]
    (to_datetime 2019 1 1) (to_datetime 2023 12 31) _ _)). reflexivity.
Defined.

(** ** Names and paths *)

Lemma chars_of_chars l : chars (of_chars l) = l.
Proof. apply String.list_ascii_of_string_of_list_ascii. Qed.

Lemma of_chars_chars s : of_chars (chars s) = s.
Proof. apply String.string_of_list_ascii_of_string. Qed.

Lemma chars_app a b : chars (a +:+ b) = chars a ++ chars b.
Proof. induction a as [|c a IH]; [done|]. simpl. by rewrite <- IH. Qed.

Lemma chars_inj a b : chars a = chars b → a = b.
Proof. intros H. by rewrite <- (of_chars_chars a), H, of_chars_chars. Qed.

Lemma string_app_assoc a b c : (a +:+ b) +:+ c = a +:+ b +:+ c.
Proof. apply chars_inj. by rewrite !chars_app, app_assoc. Qed.

Lemma foldl_basename_no_slash name : ∀ acc,
  "/"%char ∉ name →
  foldl (λ acc c, if bool_decide (c = "/"%char) then [] else acc ++ [c]) acc name
  = acc ++ name.
Proof.
  induction name as [|c name IH]; intros acc Hn; simpl.
  - by rewrite app_nil_r.
  - apply not_elem_of_cons in Hn as [Hc Hn].
    rewrite bool_decide_false by done. rewrite IH by done.
    by rewrite <- app_assoc.
Qed.

Lemma basename_no_slash name : "/"%char ∉ chars name → basename name = name.
Proof.
  intros Hn. unfold basename. rewrite foldl_basename_no_slash by done.
  apply of_chars_chars.
Qed.

Lemma basename_after_slash a name :
  "/"%char ∉ chars name → basename (a +:+ "/" +:+ name) = name.
Proof.
  intros Hn. unfold basename. rewrite !chars_app, !foldl_app. simpl.
  rewrite foldl_basename_no_slash by done. apply of_chars_chars.
Qed.

Lemma startswith_slash name : "/"%char ∉ chars name → startswith name "/" = false.
Proof.
  intros Hn. unfold startswith. apply bool_decide_eq_false.
  change (chars "/") with ["/"%char].
  destruct (chars name) as [|c l]; [apply prefix_nil_not|].
  intros <-%prefix_cons_inv_1. apply Hn. by left.
Qed.

Lemma endswith_slash a :
  endswith a "/" = true → ∃ a', a = a' +:+ "/".
Proof.
  unfold endswith. intros [l Hl]%bool_decide_eq_true.
  change (chars "/") with ["/"%char] in Hl.
  exists (of_chars l). apply chars_inj. by rewrite chars_app, chars_of_chars.
Qed.

Lemma basename_path_join directory name :
  "/"%char ∉ chars name → basename (path_join directory name) = name.
Proof.
  intros Hn. unfold path_join. rewrite startswith_slash by done.
  case_bool_decide as Ha; simpl.
  - subst. by apply basename_no_slash.
  - destruct (endswith directory "/") eqn:He.
    + apply endswith_slash in He as [a' ->].
      rewrite string_app_assoc.
      by apply (basename_after_slash a' name).
    + by apply basename_after_slash.
Qed.

#[local] Abbreviation csv := (chars ".csv").

Lemma replace_chars_no_dot a rest :
  "."%char ∉ a →
  replace_chars csv [] 0 (a ++ rest) = a ++ replace_chars csv [] 0 rest.
Proof.
  induction a as [|c a IH]; intros Ha; [done|].
  apply not_elem_of_cons in Ha as [Hc Ha].
  change ((c :: a) ++ rest) with (c :: (a ++ rest)). cbn [replace_chars].
  rewrite bool_decide_false; [by rewrite IH|].
  change csv with ("."%char :: chars "csv").
  by intros <-%prefix_cons_inv_1.
Qed.

Lemma replace_chars_csv rest :
  replace_chars csv [] 0 (csv ++ rest) = replace_chars csv [] 0 rest.
Proof.
  change (csv ++ rest) with ("."%char :: chars "csv" ++ rest).
  cbn [replace_chars]. rewrite bool_decide_true; [done|].
  by apply (prefix_app_r csv csv).
Qed.

Lemma str_replace_csv_chars s :
  chars (str_replace s ".csv" "") = replace_chars csv [] 0 (chars s).
Proof. unfold str_replace. simpl. apply chars_of_chars. Qed.

Lemma date_str_inner a b :
  "."%char ∉ chars a →
  str_replace (a +:+ ".csv" +:+ b) ".csv" "" = a +:+ str_replace b ".csv" "".
Proof.
  intros Ha. apply chars_inj.
  rewrite chars_app, !str_replace_csv_chars, !chars_app.
  by rewrite replace_chars_no_dot, replace_chars_csv.
Qed.

Lemma endswith_app a suffix : endswith (a +:+ suffix) suffix = true.
Proof.
  unfold endswith. apply bool_decide_eq_true. rewrite chars_app.
  by apply suffix_app_r.
Qed.

Lemma string_app_nil_r a : a +:+ "" = a.
Proof. apply chars_inj. by rewrite chars_app, app_nil_r. Qed.

Lemma no_slash_csv d : "/"%char ∉ chars d → "/"%char ∉ chars (d +:+ ".csv").
Proof.
  intros Hd. rewrite chars_app, not_elem_of_app. split; [done|].
  apply (bool_decide_unpack _). reflexivity.
Qed.

(** X9.  The date string of a file.  A file named [d.csv], where [d] has
    neither slash nor dot, is one the generator keeps, and whatever the
    directory it is found in, the string read as its date is [d].  Every
    occurrence of [.csv] is removed from the name, not only the one that
    ends it: the date string of [d.csvd'.csv] is [dd']. *)
Theorem date_str_of_file directory d :
  "/"%char ∉ chars d → "."%char ∉ chars d →
  endswith (d +:+ ".csv") ".csv" = true
  ∧ str_replace (basename (path_join directory (d +:+ ".csv"))) ".csv" "" = d
  ∧ ∀ d', "/"%char ∉ chars d' → "."%char ∉ chars d' →
          str_replace
            (basename (path_join directory (d +:+ ".csv" +:+ d' +:+ ".csv")))
            ".csv" "" = d +:+ d'.
Proof.
  intros Hs Hd. split; [apply endswith_app|]. split.
  - rewrite basename_path_join by by apply no_slash_csv.
    etransitivity; [apply (date_str_inner d ""); done|].
    apply string_app_nil_r.
  - intros d' Hs' Hd'. rewrite basename_path_join.
    + rewrite date_str_inner by done. f_equal.
      etransitivity; [apply (date_str_inner d' ""); done|].
      apply string_app_nil_r.
    + rewrite chars_app, not_elem_of_app. split; [done|].
      apply (no_slash_csv (".csv" +:+ d')).
      rewrite chars_app, not_elem_of_app. split; [|done].
      apply (bool_decide_unpack _). reflexivity.
Qed.

Lemma date_str_of_file_witness :
  str_replace (basename (path_join "GHI/2021" "2021-01-01.csv")) ".csv" ""
  = "2021-01-01".
Proof.
  refine (proj1 (proj2 (date_str_of_file "GHI/2021" "2021-01-01" _ _)));
    apply (bool_decide_unpack _); reflexivity.
Defined.

(** ** Column names *)

Ltac by_char c := destruct c as [[] [] [] [] [] [] [] []]; reflexivity.

Lemma upper_lower c : upper (lower c) = upper c.
Proof. by_char c. Qed.
Lemma lower_upper c : lower (upper c) = lower c.
Proof. by_char c. Qed.
Lemma upper_upper c : upper (upper c) = upper c.
Proof. by_char c. Qed.
Lemma lower_lower c : lower (lower c) = lower c.
Proof. by_char c. Qed.
Lemma isspace_upper c : isspace (upper c) = isspace c.
Proof. by_char c. Qed.
Lemma isspace_lower c : isspace (lower c) = isspace c.
Proof. by_char c. Qed.

Lemma capitalize_lower y : capitalize (lower <$> y) = capitalize y.
Proof.
  destruct y as [|c y]; [done|]. simpl. rewrite upper_lower. f_equal.
  rewrite <- list_fmap_compose. apply list_fmap_ext. intros _ c' _. apply lower_lower.
Qed.

Lemma lower_capitalize y : lower <$> capitalize y = lower <$> y.
Proof.
  destruct y as [|c y]; [done|]. simpl. rewrite lower_upper. f_equal.
  rewrite <- list_fmap_compose. apply list_fmap_ext. intros _ c' _. apply lower_lower.
Qed.

Lemma capitalize_capitalize y : capitalize (capitalize y) = capitalize y.
Proof.
  destruct y as [|c y]; [done|]. simpl. rewrite upper_upper. f_equal.
  rewrite <- list_fmap_compose. apply list_fmap_ext. intros _ c' _. apply lower_lower.
Qed.

Lemma isspace_capitalize y : isspace <$> capitalize y = isspace <$> y.
Proof.
  destruct y as [|c y]; [done|]. simpl. rewrite isspace_upper. f_equal.
  rewrite <- list_fmap_compose. apply list_fmap_ext. intros _ c' _. apply isspace_lower.
Qed.

(** [lstrip] removes a run of blanks and leaves no blank in front. *)
Lemma lstrip_blanks ws s :
  Forall (λ c, isspace c = true) ws → lstrip (ws ++ s) = lstrip s.
Proof. induction 1 as [|c ws Hc _ IH]; [done|]. simpl. by rewrite Hc. Qed.

Lemma lstrip_head s :
  lstrip s = [] ∨ ∃ c s', lstrip s = c :: s' ∧ isspace c = false.
Proof.
  induction s as [|c s IH]; [by left|]. simpl.
  destruct (isspace c) eqn:Hc; [done|]. right. by exists c, s.
Qed.

Lemma lstrip_fixed s :
  lstrip s = s ↔ head (isspace <$> s) ≠ Some true.
Proof.
  destruct s as [|c s]; [done|]. simpl. destruct (isspace c) eqn:Hc.
  - split; [|done]. intros H.
    assert (length (lstrip s) ≤ length s)%nat as Hl.
    { clear. induction s as [|c s IH]; [done|]. simpl.
      destruct (isspace c); simpl; lia. }
    rewrite H in Hl. simpl in Hl. lia.
  - split; [|done]. by intros _ [=].
Qed.

Lemma lstrip_lstrip s : lstrip (lstrip s) = lstrip s.
Proof.
  destruct (lstrip_head s) as [->|(c & s' & -> & Hc)]; [done|].
  simpl. by rewrite Hc.
Qed.

Lemma lstrip_app s t : lstrip s ≠ [] → lstrip (s ++ t) = lstrip s ++ t.
Proof.
  induction s as [|c s IH]; [done|]. simpl.
  destruct (isspace c); [exact IH|done].
Qed.

Lemma lstrip_suffix s : ∃ ws, s = ws ++ lstrip s ∧ Forall (λ c, isspace c = true) ws.
Proof.
  induction s as [|c s (ws & Hs & Hws)]; [by exists []|]. simpl.
  destruct (isspace c) eqn:Hc.
  - exists (c :: ws). split; [by rewrite Hs at 1|by constructor].
  - by exists [].
Qed.

(** What [strip] returns has no blank at either end. *)
Lemma strip_clean s : clean (strip s).
Proof.
  unfold clean, strip. rewrite reverse_involutive, lstrip_lstrip.
  split; [|done].
  destruct (lstrip_suffix (reverse (lstrip s))) as (ws & Hs & _).
  destruct (lstrip (reverse (lstrip s))) as [|c w] eqn:Hw using rev_ind; [done|].
  clear IHw. rewrite reverse_snoc. simpl.
  apply (f_equal reverse) in Hs.
  rewrite reverse_involutive, reverse_app, reverse_snoc in Hs.
  destruct (lstrip_head s) as [He|(c' & s' & He & Hc')].
  - rewrite He in Hs. done.
  - rewrite He in Hs. simpl in Hs. injection Hs as -> _. by rewrite Hc'.
Qed.

Lemma clean_isspace y y' :
  isspace <$> y = isspace <$> y' → clean y → clean y'.
Proof.
  unfold clean. rewrite !lstrip_fixed, !fmap_reverse. by intros ->.
Qed.

Lemma strip_of_clean y : clean y → strip y = y.
Proof.
  intros [H1 H2]. unfold strip. by rewrite H1, H2, reverse_involutive.
Qed.

Lemma strip_blanks ws1 ws2 s :
  Forall (λ c, isspace c = true) ws1 → Forall (λ c, isspace c = true) ws2 →
  strip (ws1 ++ s ++ ws2) = strip s.
Proof.
  intros H1 H2. unfold strip. rewrite lstrip_blanks by done.
  destruct (lstrip s) as [|c s'] eqn:Hs.
  - destruct (lstrip_suffix s) as (ws & Hws & Hall). rewrite Hs, app_nil_r in Hws.
    subst ws. rewrite lstrip_blanks by done.
    rewrite <- (app_nil_r ws2), lstrip_blanks by done. done.
  - rewrite lstrip_app by (by rewrite Hs). rewrite Hs, reverse_app.
    rewrite lstrip_blanks; [done|]. by apply Forall_reverse.
Qed.

Lemma strip_capitalize_chars col :
  chars (strip_capitalize col) = capitalize (strip (chars col)).
Proof. apply chars_of_chars. Qed.

(** X10.  The names of the columns.  Normalising a name twice is
    normalising it once; two names are normalised to the same name
    exactly when they are equal once stripped and up to the case of their
    letters; blanks around a name do not count; so a column is taken for
    the column of dates exactly when its name, stripped and in lower
    case, is [date]. *)
Theorem column_names_normalised :
  (∀ col, strip_capitalize (strip_capitalize col) = strip_capitalize col)
  ∧ (∀ a b, strip_capitalize a = strip_capitalize b ↔
            lower <$> strip (chars a) = lower <$> strip (chars b))
  ∧ (∀ ws1 ws2 col,
       Forall (λ c, isspace c = true) ws1 → Forall (λ c, isspace c = true) ws2 →
       strip_capitalize (of_chars (ws1 ++ chars col ++ ws2)) = strip_capitalize col)
  ∧ (∀ col, strip_capitalize col = "Date" ↔
            lower <$> strip (chars col) = chars "date").
Proof.
  assert (Heq : ∀ a b, strip_capitalize a = strip_capitalize b ↔
            lower <$> strip (chars a) = lower <$> strip (chars b)).
  { intros a b. split.
    - intros H%(f_equal chars). rewrite !strip_capitalize_chars in H.
      by rewrite <- (lower_capitalize (strip (chars a))), H, lower_capitalize.
    - intros H. apply chars_inj. rewrite !strip_capitalize_chars.
      by rewrite <- (capitalize_lower (strip (chars a))), H, capitalize_lower. }
  split; [|split; [|split]].
  - intros col. apply chars_inj. rewrite !strip_capitalize_chars.
    rewrite (strip_of_clean (capitalize _)), capitalize_capitalize; [done|].
    eapply clean_isspace; [|apply strip_clean].
    symmetry. apply isspace_capitalize.
  - exact Heq.
  - intros ws1 ws2 col H1 H2. apply chars_inj.
    by rewrite !strip_capitalize_chars, chars_of_chars, strip_blanks.
  - intros col. apply (Heq col "Date").
Qed.

(** ** The walk over a directory *)

Lemma Dir_ind_Forall {F} (P : Dir F → Prop) :
  (∀ entries subdirs, Forall (λ ds, P ds.2) subdirs → P (mkDir entries subdirs)) →
  ∀ tree, P tree.
Proof.
  intros H. fix IH 1. intros [entries subdirs]. apply H.
  induction subdirs as [|[name sub] ds IHds]; constructor; [apply IH|apply IHds].
Qed.

(** The walk over the subdirectories, one at a time. *)
Lemma find_csv_files_unfold {F} directory entries (subdirs : list (string * Dir F)) p f :
  (p, f) ∈ find_csv_files directory (mkDir entries subdirs) ↔
  (∃ name, (name, f) ∈ entries ∧ endswith name ".csv" = true
           ∧ p = path_join directory name)
  ∨ (∃ d sub, (d, sub) ∈ subdirs
              ∧ (p, f) ∈ find_csv_files (path_join directory d) sub).
Proof.
  cbn [find_csv_files]. rewrite elem_of_app.
  match goal with |- ?A ∨ ?B ↔ ?A' ∨ ?B' =>
    assert (A ↔ A') as HA; [|assert (B ↔ B') as HB; [|tauto]] end.
  - rewrite list_elem_of_fmap. split.
    + intros ([name f'] & [= -> ->] & [He Hin]%list_elem_of_filter). by exists name.
    + intros (name & Hin & He & ->). exists (name, f). split; [done|].
      by apply list_elem_of_filter.
  - clear HA. induction subdirs as [|[d sub] ds IH].
    + split; [by intros ?%elem_of_nil|]. by intros (d & sub & ?%elem_of_nil & _).
    + rewrite elem_of_app, IH. split.
      * intros [Hin|(d' & sub' & Hin & Hp)].
        -- exists d, sub. split; [by left|done].
        -- exists d', sub'. split; [by right|done].
      * intros (d' & sub' & [[= -> ->]|Hin]%elem_of_cons & Hp); [by left|].
        right. by exists d', sub'.
Qed.

(** X11.  What the generator yields.  The paths that [find_csv_files]
    yields are those of the files whose name ends in [.csv], at any depth
    below the directory: each is the directory, joined with the
    subdirectories that lead to the file and with its name, and comes
    with what that file holds. *)
Theorem find_csv_files_spec {F} (tree : Dir F) : ∀ directory p f,
  (p, f) ∈ find_csv_files directory tree ↔
  ∃ dirs name, file_in tree dirs name f
               ∧ endswith name ".csv" = true
               ∧ p = path_join (foldl path_join directory dirs) name.
Proof.
  induction tree as [entries subdirs IH] using Dir_ind_Forall.
  intros directory p f. rewrite find_csv_files_unfold. split.
  - intros [(name & Hin & He & ->)|(d & sub & Hin & Hp)].
    + exists [], name. split; [by constructor|done].
    + rewrite Forall_forall in IH. apply (IH _ Hin) in Hp as (dirs & name & Hf & He & ->).
      exists (d :: dirs), name. split; [by econstructor|done].
  - intros (dirs & name & Hf & He & ->). inversion Hf; simplify_eq.
    + left. by exists name.
    + right. exists d, sub. split; [done|]. rewrite Forall_forall in IH.
      apply (IH (d, sub)); [done|]. by exists dirs0, name.
Qed.

(** ** Reading the files *)

Section reading.
Context {C D : Type}.
Variable to_datetime_format : string → outcome (option Timestamp).
Variable to_datetime_coerce : list C → outcome (list D).
Variable eq_Timestamp : D → Timestamp → bool.

#[local] Abbreviation observe :=
  (read_observation to_datetime_format to_datetime_coerce eq_Timestamp).
#[local] Abbreviation read :=
  (read_files to_datetime_format to_datetime_coerce eq_Timestamp).
#[local] Abbreviation rows :=
  (rows_found to_datetime_format to_datetime_coerce eq_Timestamp).

Lemma first_true_spec mask k :
  first_true mask = Some k ↔
  mask !! k = Some true ∧ ∀ j, (j < k)%nat → mask !! j = Some false.
Proof.
  revert k. induction mask as [|b mask IH]; intros k; simpl.
  - split; [done|]. by intros [? _].
  - destruct b.
    + split.
      * intros [= <-]. split; [done|]. lia.
      * intros [Hk Hj]. destruct k as [|k]; [done|].
        specialize (Hj 0%nat ltac:(lia)). done.
    + rewrite fmap_Some. split.
      * intros (k' & [Hk Hj]%IH & ->). split; [done|].
        intros [|j] Hlt; [done|]. apply Hj. lia.
      * intros [Hk Hj]. destruct k as [|k]; [done|]. exists k. split; [|done].
        apply IH. split; [done|]. intros j Hlt. apply (Hj (S j)). lia.
Qed.

Lemma first_true_None mask :
  first_true mask = None ↔ Forall (λ b, b = false) mask.
Proof.
  induction mask as [|[] mask IH]; simpl.
  - split; [constructor|done].
  - split; [done|]. by inversion 1.
  - rewrite fmap_None, IH. split; [by constructor|by inversion 1].
Qed.

Lemma read_files_app value found1 : ∀ found2 dict,
  read value (found1 ++ found2) dict =
  match read value found1 dict with
  | Raise e => Raise e
  | Return dict' => read value found2 dict'
  end.
Proof.
  induction found1 as [|[p c] found1 IH]; intros found2 dict; [done|].
  simpl. destruct (observe value p c); by rewrite ?IH.
Qed.

Lemma read_files_Return value found : ∀ dict idx,
  read value found dict = Return idx →
  Forall (λ pf, ∀ e, observe value pf.1 pf.2 ≠ Failed e) found
  ∧ ∀ d, idx !! d = match last (rows value d found) with
                    | Some row => Some row
                    | None => dict !! d
                    end.
Proof.
  induction found as [|[p c] found IH]; intros dict idx Hread; simpl in *.
  - injection Hread as <-. split; [constructor|done].
  - unfold rows_found. simpl. destruct (observe value p c) as [|e|d' row] eqn:Ho.
    + apply IH in Hread as [Hall Hidx]. split; [|done].
      constructor; [|done]. simpl. by rewrite Ho.
    + done.
    + apply IH in Hread as [Hall Hidx]. split.
      { constructor; [|done]. simpl. by rewrite Ho. }
      intros d. rewrite Hidx. fold (rows value d found).
      case_bool_decide as Hd.
      * subst d'. rewrite last_cons.
        destruct (last (rows value d found)); [done|]. by rewrite lookup_insert_eq.
      * destruct (last (rows value d found)); [done|]. by rewrite lookup_insert_ne.
Qed.

Lemma read_files_total value found : ∀ dict,
  Forall (λ pf, ∀ e, observe value pf.1 pf.2 ≠ Failed e) found →
  ∃ idx, read value found dict = Return idx.
Proof.
  induction found as [|[p c] found IH]; intros dict Hall; [by eexists|].
  apply Forall_cons in Hall as [Hpf Hall]. simpl in *.
  destruct (observe value p c) as [|e|d row]; [by apply IH| |by apply IH].
  by destruct (Hpf e).
Qed.

Lemma read_files_Raise value found : ∀ dict e,
  read value found dict = Raise e ↔
  ∃ before pf after,
    found = before ++ pf :: after
    ∧ Forall (λ pf, ∀ e, observe value pf.1 pf.2 ≠ Failed e) before
    ∧ observe value pf.1 pf.2 = Failed e.
Proof.
  induction found as [|[p c] found IH]; intros dict e; simpl.
  - split; [done|]. intros (before & pf & after & Hf & _). by destruct before.
  - destruct (observe value p c) as [|e'|d row] eqn:Ho.
    + rewrite IH. split.
      * intros (before & pf & after & -> & Hb & Hpf).
        exists ((p, c) :: before), pf, after. split; [done|]. split; [|done].
        constructor; [|done]. simpl. by rewrite Ho.
      * intros ([|pf0 before] & pf & after & Hf & Hb & Hpf).
        -- simpl in Hf. injection Hf as <- <-. simpl in Hpf. congruence.
        -- simpl in Hf. injection Hf as <- ->. apply Forall_cons in Hb as [_ Hb].
           by exists before, pf, after.
    + split.
      * intros [= ->]. exists [], (p, c), found. by repeat split.
      * intros ([|pf0 before] & pf & after & Hf & Hb & Hpf).
        -- simpl in Hf. injection Hf as <- <-. simpl in Hpf. congruence.
        -- simpl in Hf. injection Hf as <- ->. apply Forall_cons in Hb as [Hp0 _].
           simpl in Hp0. by destruct (Hp0 e').
    + rewrite IH. split.
      * intros (before & pf & after & -> & Hb & Hpf).
        exists ((p, c) :: before), pf, after. split; [done|]. split; [|done].
        constructor; [|done]. simpl. by rewrite Ho.
      * intros ([|pf0 before] & pf & after & Hf & Hb & Hpf).
        -- simpl in Hf. injection Hf as <- <-. simpl in Hpf. congruence.
        -- simpl in Hf. injection Hf as <- ->. apply Forall_cons in Hb as [_ Hb].
           by exists before, pf, after.
Qed.


Lemma read_files_skip value before pf after dict :
  observe value pf.1 pf.2 = Skipped →
  read value (before ++ pf :: after) dict = read value (before ++ after) dict.
Proof.
  intros Ho. rewrite !read_files_app.
  destruct (read value before dict) as [e|dict']; [done|].
  destruct pf as [p c]. simpl in *. by rewrite Ho.
Qed.

(** X12.  What one file contributes.  A file gives a row exactly when
    its name is read as a day [d], it is read as a frame that has, after
    the normalisation of the names, a column [Date] and a column of
    values, just one column [Date], whose conversion returns, and some
    row whose date is [d]; the row is the first such row.  A file stops
    the run with [e] exactly when its name is read (as a day or as NaT)
    and either reading it raises [e], or it has the two columns and
    several columns [Date], or the conversion of its dates raises [e].
    In every other case the file is passed over. *)
Theorem observation_of_file value file_path content :
  (∀ d row,
     observe value file_path content = Found d row ↔
     to_datetime_format (str_replace (basename file_path) ".csv" "")
     = Return (Some d)
     ∧ ∃ df dates parsed k,
         content = Return df
         ∧ "Date" ∈ strip_capitalize <$> df.*1
         ∧ value ∈ strip_capitalize <$> df.*1
         ∧ columns_named "Date" (prod_map strip_capitalize id <$> df) = [dates]
         ∧ to_datetime_coerce dates = Return parsed
         ∧ ((λ x, eq_Timestamp x d) <$> parsed) !! k = Some true
         ∧ (∀ j, (j < k)%nat →
                 ((λ x, eq_Timestamp x d) <$> parsed) !! j = Some false)
         ∧ row = omap (λ col : list C, col !! k)
                      (columns_named value (prod_map strip_capitalize id <$> df)))
  ∧ (∀ e,
       observe value file_path content = Failed e ↔
       ∃ expected,
         to_datetime_format (str_replace (basename file_path) ".csv" "")
         = Return expected
         ∧ (content = Raise e
            ∨ ∃ df,
                content = Return df
                ∧ "Date" ∈ strip_capitalize <$> df.*1
                ∧ value ∈ strip_capitalize <$> df.*1
                ∧ ((length (columns_named "Date"
                              (prod_map strip_capitalize id <$> df)) ≠ 1%nat
                    ∧ e = ValueError "cannot assemble with duplicate keys")
                   ∨ ∃ dates,
                       columns_named "Date" (prod_map strip_capitalize id <$> df)
                       = [dates]
                       ∧ to_datetime_coerce dates = Raise e))).
Proof.
  assert (Hnames : ∀ df : Table C,
    (prod_map strip_capitalize id <$> df).*1 = strip_capitalize <$> df.*1).
  { intros df. rewrite <- !list_fmap_compose. by apply list_fmap_ext. }
  unfold read_observation. split.
  - intros d row.
    destruct (to_datetime_format _) as [e|expected]; [split; [done|intros [[=] _]]|].
    destruct content as [e|df]; [split; [done|by intros (_ & ? & ? & ? & ? & ? & _)]|].
    rewrite Hnames.
    destruct (bool_decide ("Date" ∉ _)) eqn:HD; simpl.
    { apply bool_decide_eq_true in HD. split; [done|].
      by intros (_ & ? & ? & ? & ? & [= <-] & ? & _). }
    destruct (bool_decide (value ∉ _)) eqn:HV; simpl.
    { apply bool_decide_eq_true in HV. split; [done|].
      by intros (_ & ? & ? & ? & ? & [= <-] & _ & ? & _). }
    apply bool_decide_eq_false in HD, HV.
    apply dec_stable in HD, HV.
    destruct (columns_named "Date" _) as [|dates [|dates' more]] eqn:Hcols.
    { split; [done|]. intros (_ & ? & ? & ? & ? & [= <-] & _ & _ & Hc & _).
      rewrite Hcols in Hc. done. }
    2:{ split; [done|]. intros (_ & ? & ? & ? & ? & [= <-] & _ & _ & Hc & _).
        rewrite Hcols in Hc. done. }
    destruct (to_datetime_coerce dates) as [e|parsed] eqn:Hparse.
    { split; [done|]. intros (_ & ? & ? & ? & ? & [= <-] & _ & _ & Hc & Hp & _).
      rewrite Hcols in Hc. injection Hc as <-. congruence. }
    destruct expected as [d'|]; [|split; [intros [=]|intros [[=] _]]].
    destruct (first_true _) as [k|] eqn:Hk.
    + split.
      * intros [= -> <-]. split; [done|]. apply first_true_spec in Hk as [Hk Hj].
        exists df, dates, parsed, k. by rewrite Hcols.
      * intros ([= ->] & df' & dates' & parsed' & k' & [= <-] & _ & _ & Hc & Hp & Hk' & Hj' & ->).
        rewrite Hcols in Hc. injection Hc as <-. rewrite Hparse in Hp. injection Hp as <-.
        assert (first_true ((λ x, eq_Timestamp x d) <$> parsed) = Some k') as Hk''
          by by apply first_true_spec.
        rewrite Hk in Hk''. by injection Hk'' as ->.
    + split; [done|].
      intros ([= ->] & df' & dates' & parsed' & k' & [= <-] & _ & _ & Hc & Hp & Hk' & Hj' & ->).
      rewrite Hcols in Hc. injection Hc as <-. rewrite Hparse in Hp. injection Hp as <-.
      assert (first_true ((λ x, eq_Timestamp x d) <$> parsed) = Some k') as Hk''
        by by apply first_true_spec.
      by rewrite Hk in Hk''.
  - intros e.
    destruct (to_datetime_format _) as [e0|expected];
      [split; [done|by intros (? & [=] & _)]|].
    destruct content as [e1|df].
    { split.
      - intros [= ->]. exists expected. split; [done|]. by left.
      - by intros (_ & _ & [[= ->]|(? & [=] & _)]). }
    rewrite Hnames.
    destruct (bool_decide ("Date" ∉ _)) eqn:HD; simpl.
    { apply bool_decide_eq_true in HD. split; [done|].
      by intros (_ & _ & [[=]|(? & [= <-] & ? & _)]). }
    destruct (bool_decide (value ∉ _)) eqn:HV; simpl.
    { apply bool_decide_eq_true in HV. split; [done|].
      by intros (_ & _ & [[=]|(? & [= <-] & _ & ? & _)]). }
    apply bool_decide_eq_false in HD, HV.
    apply dec_stable in HD, HV.
    destruct (columns_named "Date" _) as [|dates [|dates' more]] eqn:Hcols.
    { split.
      - intros [= <-]. exists expected. split; [done|]. right. exists df.
        rewrite Hcols. do 3 (split; [done|]). by left.
      - intros (_ & _ & [[=]|(? & [= <-] & _ & _ & [[_ ->]|(dates & Hc & _)])]);
          [done|]. by rewrite Hcols in Hc. }
    2:{ split.
      - intros [= <-]. exists expected. split; [done|]. right. exists df.
        rewrite Hcols. do 3 (split; [done|]). by left.
      - intros (_ & _ & [[=]|(? & [= <-] & _ & _ & [[_ ->]|(dates0 & Hc & _)])]);
          [done|]. by rewrite Hcols in Hc. }
    destruct (to_datetime_coerce dates) as [e1|parsed] eqn:Hparse.
    { split.
      - intros [= ->]. exists expected. split; [done|]. right. exists df.
        rewrite Hcols. do 3 (split; [done|]). right. by exists dates.
      - intros (_ & _ & [[=]|(? & [= <-] & _ & _ & [[Hn _]|(dates' & Hc & Hp)])]).
        + by rewrite Hcols in Hn.
        + rewrite Hcols in Hc. injection Hc as <-. congruence. }
    split.
    + destruct expected as [d|]; [destruct (first_true _)|]; done.
    + intros (_ & _ & [[=]|(? & [= <-] & _ & _ & [[Hn _]|(dates' & Hc & Hp)])]).
      * by rewrite Hcols in Hn.
      * rewrite Hcols in Hc. injection Hc as <-. congruence.
Qed.

(** X13.  The last file wins.  When the reading of a directory returns,
    the dictionary holds, for each day, the row of the last file, in the
    order of the walk, that gives a row for that day, and no entry for a
    day for which no file gives one. *)
Theorem index_last_file_wins value directory tree idx :
  read_index to_datetime_format to_datetime_coerce eq_Timestamp value directory tree
  = Return idx →
  ∀ d, idx !! d = last (rows value d (find_csv_files directory tree)).
Proof.
  intros [_ Hidx]%read_files_Return d. rewrite Hidx, lookup_empty.
  by destruct (last _).
Qed.

(** X14.  Errors while reading.  The loop over the files returns
    exactly when no file fails, whatever the dictionary it starts from;
    it raises [e] exactly when the first file that fails, fails with [e];
    and a file whose name is not read as a date counts for nothing: with
    or without it the result is the same, even if the file cannot be
    read. *)
Theorem reading_errors value found dict :
  ((∃ idx, read value found dict = Return idx) ↔
   ∀ pf e, pf ∈ found → observe value pf.1 pf.2 ≠ Failed e)
  ∧ (∀ e, read value found dict = Raise e ↔
       ∃ before pf after,
         found = before ++ pf :: after
         ∧ (∀ pf' e', pf' ∈ before → observe value pf'.1 pf'.2 ≠ Failed e')
         ∧ observe value pf.1 pf.2 = Failed e)
  ∧ (∀ before file_path content after e,
       found = before ++ (file_path, content) :: after →
       to_datetime_format (str_replace (basename file_path) ".csv" "") = Raise e →
       read value found dict = read value (before ++ after) dict).
Proof.
  split; [|split].
  - split.
    + intros [idx [Hall _]%read_files_Return] pf e Hin.
      rewrite Forall_forall in Hall. by apply Hall.
    + intros Hall. apply read_files_total. apply Forall_forall.
      intros pf Hin e. by apply Hall.
  - intros e. rewrite read_files_Raise. split.
    + intros (before & pf & after & Hf & Hb & Hpf). exists before, pf, after.
      split; [done|]. split; [|done]. intros pf' e' Hin.
      rewrite Forall_forall in Hb. by apply Hb.
    + intros (before & pf & after & Hf & Hb & Hpf). exists before, pf, after.
      split; [done|]. split; [|done]. apply Forall_forall. intros pf' Hin e'.
      by apply Hb.
  - intros before file_path content after e -> Hname.
    apply read_files_skip. simpl. unfold read_observation. by rewrite Hname.
Qed.

End reading.

Lemma index_last_file_wins_witness :
  ∃ idx,
    read_index sample_format sample_coerce sample_eq "Ghi" "GHI" ghi_tree
    = Return idx
    ∧ idx !! to_datetime 2021 1 1 = Some [Number 4%float].
Proof.
  eexists. split; [reflexivity|].
  refine (eq_trans (index_last_file_wins sample_format sample_coerce sample_eq
                      "Ghi" "GHI" ghi_tree _ _ (to_datetime 2021 1 1)) _);
    vm_compute; reflexivity.
Defined.
